(** * word-language-model: the batching, windowing and training-control
    logic of [main.py], embedded in Rocq.

    Python integers are [Z], Python floats are IEEE binary64 numbers
    ([PrimFloat.float]), a 1-D LongTensor is a [list Z] and a 2-D
    LongTensor is a list of rows together with its column count.
    Operations that can raise in Python return a [result]. *)

From Stdlib Require Import String ZArith List Lia Bool Floats.
Import ListNotations.
Open Scope Z_scope.

Set Implicit Arguments.

(** ** Exceptions and the error monad *)

Inductive exn : Type :=
| ZeroDivisionError
| ValueError
| RuntimeError
| OverflowError
| NameError
| FileNotFoundError
| IndexError
| AssertionError (msg : string).

Inductive result (A : Type) : Type :=
| Ok (a : A)
| Raise (e : exn).

Arguments Ok {A} a.
Arguments Raise {A} e.

Definition bind {A B : Type} (c : result A) (k : A -> result B) : result B :=
  match c with
  | Ok a => k a
  | Raise e => Raise e
  end.

Notation "x <- c ;; k" := (bind c (fun x => k))
  (at level 61, c at next level, right associativity).

(** ** Python built-ins used by [main.py] *)

Module Py.

Definition len {A : Type} (l : list A) : Z := Z.of_nat (length l).

(** [a // b] on integers. *)
Definition floordiv (a b : Z) : result Z :=
  if b =? 0 then Raise ZeroDivisionError else Ok (a / b).

(** Normalisation of one bound of a slice [l[a:b]]: a negative bound
    counts from the end, and the bound is then clipped to [0..len]. *)
Definition clip (n idx : Z) : Z :=
  if idx <? 0 then Z.max 0 (idx + n) else Z.min idx n.

(** [l[a:b]] *)
Definition slice {A : Type} (l : list A) (a b : Z) : list A :=
  let n := len l in
  let lo := clip n a in
  let hi := clip n b in
  firstn (Z.to_nat (hi - lo)) (skipn (Z.to_nat lo) l).

(** Number of elements of [range(start, stop, step)] for [step <> 0]. *)
Definition range_len (start stop step : Z) : Z :=
  if 0 <? step
  then (if start <? stop then (stop - start - 1) / step + 1 else 0)
  else (if stop <? start then (start - stop - 1) / (- step) + 1 else 0).

(** [range(start, stop)] *)
Definition range2 (start stop : Z) : list Z :=
  map (fun k => start + Z.of_nat k) (seq 0 (Z.to_nat (stop - start))).

(** [l[i]] *)
Definition getitem {A : Type} (l : list A) (i : Z) : result A :=
  let j := if i <? 0 then i + len l else i in
  if j <? 0 then Raise IndexError
  else match nth_error l (Z.to_nat j) with
       | Some a => Ok a
       | None => Raise IndexError
       end.

(** [range(start, stop, step)] *)
Definition range (start stop step : Z) : result (list Z) :=
  if step =? 0 then Raise ValueError
  else Ok (map (fun k => start + Z.of_nat k * step)
               (seq 0 (Z.to_nat (range_len start stop step)))).

End Py.

(** ** The tensor operations used by [main.py] *)

Module Torch.

(** A 2-D LongTensor: [rows] along dimension 0, [dim1] columns. *)
Record Tensor2 : Type := mkTensor2 {
  dim1 : nat;
  rows : list (list Z)
}.

(** Every row has [dim1] entries. *)
Definition wf (x : Tensor2) : Prop :=
  Forall (fun r => length r = dim1 x) (rows x).

(** [x.size(0)], also [len(x)] *)
Definition size0 (x : Tensor2) : Z := Py.len (rows x).

(** [x.size()[1]] *)
Definition size1 (x : Tensor2) : Z := Z.of_nat (dim1 x).

(** Column [c], top to bottom. *)
Definition column (x : Tensor2) (c : nat) : list Z :=
  map (fun r => nth c r 0) (rows x).

(** [data.narrow(0, start, length)] on a 1-D tensor. *)
Definition narrow (data : list Z) (start length : Z) : result (list Z) :=
  let n := Py.len data in
  let s := if start <? 0 then start + n else start in
  if (s <? 0) || (n <? s) || (length <? 0) || (n <? s + length)
  then Raise RuntimeError
  else Ok (firstn (Z.to_nat length) (skipn (Z.to_nat s) data)).

(** Cut [l] into [n] consecutive pieces of [w] entries each. *)
Fixpoint chunks (n w : nat) (l : list Z) : list (list Z) :=
  match n with
  | O => []
  | S n' => firstn w l :: chunks n' w (skipn w l)
  end.

(** [data.view(d0, -1)] on a 1-D tensor: [d0] rows, the row length is
    inferred.  A non-positive [d0] or a size that [d0] does not divide
    is refused. *)
Definition view2 (data : list Z) (d0 : Z) : result Tensor2 :=
  let n := Py.len data in
  if (d0 <=? 0) || negb (n mod d0 =? 0) then Raise RuntimeError
  else Ok (mkTensor2 (Z.to_nat (n / d0))
                     (chunks (Z.to_nat d0) (Z.to_nat (n / d0)) data)).

(** [x.t()] (followed by [.contiguous()], which does not change the
    entries). *)
Definition t (x : Tensor2) : Tensor2 :=
  mkTensor2 (length (rows x))
            (map (fun c => column x c) (seq 0 (dim1 x))).

(** [x.view(-1)] on a contiguous 2-D tensor: row after row. *)
Definition flatten (x : Tensor2) : list Z := concat (rows x).

(** [x[a:b]]: a slice along dimension 0. *)
Definition slice0 (x : Tensor2) (a b : Z) : Tensor2 :=
  mkTensor2 (dim1 x) (Py.slice (rows x) a b).

(** [torch.ones(n, m, dtype=torch.long) * v] *)
Definition full (n m v : Z) : result Tensor2 :=
  if (n <? 0) || (m <? 0) then Raise RuntimeError
  else Ok (mkTensor2 (Z.to_nat m)
                     (repeat (repeat v (Z.to_nat m)) (Z.to_nat n))).

(** [prefix.unsqueeze(1).expand(n, m)] on a 1-D tensor [prefix]: every
    entry becomes a row of [m] copies of itself.  [n] must be the
    length of [prefix] (or -1, which keeps it); a prefix of length 1 is
    repeated [n] times. *)
Definition unsqueeze_expand (prefix : list Z) (n m : Z) : result Tensor2 :=
  let k := Py.len prefix in
  if m <? 0 then Raise RuntimeError
  else if (n =? k) || (n =? -1)
  then Ok (mkTensor2 (Z.to_nat m)
                     (map (fun v => repeat v (Z.to_nat m)) prefix))
  else if (k =? 1) && (0 <=? n)
  then Ok (mkTensor2 (Z.to_nat m)
                     (repeat (repeat (hd 0 prefix) (Z.to_nat m)) (Z.to_nat n)))
  else Raise RuntimeError.

(** [torch.cat((x, y), dim=0)] on 2-D tensors. *)
Definition cat0 (x y : Tensor2) : result Tensor2 :=
  if Nat.eqb (dim1 x) (dim1 y)
  then Ok (mkTensor2 (dim1 x) (rows x ++ rows y))
  else Raise RuntimeError.

End Torch.

Import Torch.

(** ** Python floats *)

Module PyFloat.

(** [float(z)] for an integer below 2^63 in absolute value (tensor sizes
    and counters are). *)
Definition of_int (z : Z) : float :=
  if z <? 0 then PrimFloat.opp (PrimFloat.of_uint63 (Uint63.of_Z (- z)))
  else PrimFloat.of_uint63 (Uint63.of_Z z).

(** [int(f)]: truncation towards zero. *)
Definition to_int (f : float) : result Z :=
  match Prim2SF f with
  | S754_zero _ => Ok 0
  | S754_infinity _ => Raise OverflowError
  | S754_nan => Raise ValueError
  | S754_finite s m e =>
      let a := if 0 <=? e then Z.shiftl (Zpos m) e
               else Z.shiftr (Zpos m) (- e) in
      Ok (if s then - a else a)
  end.

(** [bool(f)]: zero (of either sign) is false, everything else is true. *)
Definition truthy (f : float) : bool := negb (PrimFloat.eqb f 0%float).

(** [a / b] with a float numerator and an integer denominator. *)
Definition div_int (a : float) (b : Z) : result float :=
  if b =? 0 then Raise ZeroDivisionError
  else Ok (PrimFloat.div a (of_int b)).

(** [a / b] on two integers (true division; both below 2^53 in absolute
    value, so that the conversions are exact). *)
Definition truediv (a b : Z) : result float :=
  if b =? 0 then Raise ZeroDivisionError
  else Ok (PrimFloat.div (of_int a) (of_int b)).

End PyFloat.

(** ** Configuration: the command-line arguments read by the modelled code *)

Record Args : Type := mkArgs {
  model_name : string;
  norder : Z;
  pad_vocab : bool;
  optim : string;
  lr_init : float;
  clip : float;
  lr_decay_rate : float;
  weight_decay : float;
  epochs : Z;
  batch_size : Z;
  eval_batch_size : Z;
  bptt : Z;
  patience : Z;
  train_eval_interval : Z;
  dry_run : bool
}.

(** The defaults of the argument parser. *)
Definition default_args : Args :=
  {| model_name := "FeedForward"; norder := 4; pad_vocab := false;
     optim := "adamw"; lr_init := 0x1.0624dd2f1a9fcp-10%float;
     clip := 0.25%float; lr_decay_rate := 4%float;
     weight_decay := 0x1.47ae147ae147bp-7%float;
     epochs := 100; batch_size := 128; eval_batch_size := 128;
     bptt := 64; patience := 8; train_eval_interval := 4;
     dry_run := false |}.

(** ** [batchify] *)

Definition batchify (data : list Z) (bsz : Z) : result Tensor2 :=
  nbatch <- Py.floordiv (Py.len data) bsz ;;
  data <- narrow data 0 (nbatch * bsz) ;;
  data <- view2 data bsz ;;
  Ok (t data).

(** The 26 tokens 0, 1, ..., 25. *)
Definition alphabet : list Z := map Z.of_nat (seq 0 26).

(** ** The program

    The corpus, the network, automatic differentiation and the AdamW
    update are external to [main.py]; they are the variables of this
    section.  What is printed and saved is recorded in a trace; the
    asynchronous
    [KeyboardInterrupt], the periodic training log line
    ([--log-interval]) and the ONNX export are left out. *)

Section Program.

Variable args : Args.

(** [len(corpus.dictionary)] and [corpus.dictionary.word2idx['<eos>']] *)
Variable dictionary_len : Z.
Variable pad_id : Z.

(** Float tensors, with [x.add_(y, alpha=a)]. *)
Variable FTensor : Type.
Variable add_ : FTensor -> FTensor -> float -> FTensor.

(** A parameter of the network: its value [p.data] and its gradient
    [p.grad].  The model is the list [model.parameters()]. *)
Record Param : Type := mkParam {
  p_data : FTensor;
  p_grad : FTensor
}.

Definition Model : Type := list Param.

Variable Hidden : Type.

(** [model.init_hidden(bsz)] *)
Variable init_hidden : Model -> Z -> Hidden.

(** The model in evaluation mode applied to a window, followed by
    [criterion(output, targets).item()]; the hidden state is present for
    the recurrent models only. *)
Variable eval_forward_loss :
  Model -> Tensor2 -> option Hidden -> list Z -> float * option Hidden.

(** [model.zero_grad()], the forward pass in training mode, the loss and
    [loss.backward()]: the model with its gradients filled in. *)
Variable train_forward_backward :
  Model -> Tensor2 -> option Hidden -> list Z -> Model * option Hidden.

(** [torch.nn.utils.clip_grad_norm_(model.parameters(), c)] *)
Variable clip_grad_norm_ : Model -> float -> Model.

(** [math.exp], which raises [OverflowError] on large arguments. *)
Variable math_exp : float -> result float.

(** The optimizer object: its parameter groups and its internal state. *)
Variable OptState : Type.
Variable adamw_state0 : OptState.

Record ParamGroup : Type := mkParamGroup {
  pg_lr : float;
  pg_weight_decay : float
}.

Record Optimizer : Type := mkOptimizer {
  param_groups : list ParamGroup;
  opt_state : OptState
}.

(** [optimizer.step()] *)
Variable adamw_step : Optimizer -> Model -> Optimizer * Model.

(** [torch.optim.AdamW(model.parameters(), lr=lr, weight_decay=wd)] *)
Definition AdamW (lr wd : float) : Optimizer :=
  mkOptimizer [mkParamGroup lr wd] adamw_state0.

(** What the program prints and writes. *)
Inductive Event : Type :=
| StartTraining (start_batch end_batch : Z)
| EndOfEpoch (epoch : Z) (val_loss ppl : float)
| SaveModel (m : Model)
| DecayLR (lr : float)
| EndOfTraining (test_loss ppl : float).

(** The module-level variables that the training loop reads and writes,
    the file at [args.save] and the output. *)
Record Globals : Type := mkGlobals {
  model : Model;
  lr : float;
  optimizer : option Optimizer;
  best_val_loss : option float;
  patience_count : Z;
  save_file : option Model;
  trace : list Event
}.

(** State and exceptions: the globals survive a raise. *)
Definition M (A : Type) : Type := Globals -> Globals * result A.

Definition ret {A : Type} (a : A) : M A := fun g => (g, Ok a).

Definition bindM {A B : Type} (c : M A) (k : A -> M B) : M B :=
  fun g => match c g with
           | (g', Ok a) => k a g'
           | (g', Raise e) => (g', Raise e)
           end.

Definition lift {A : Type} (r : result A) : M A := fun g => (g, r).

Definition get : M Globals := fun g => (g, Ok g).

Definition put (g : Globals) : M unit := fun _ => (g, Ok tt).

Definition print (e : Event) : M unit :=
  fun g => (mkGlobals (model g) (lr g) (optimizer g) (best_val_loss g)
                      (patience_count g) (save_file g) (trace g ++ [e]),
            Ok tt).

Notation "x <<- c ;; k" := (bindM c (fun x => k))
  (at level 61, c at next level, right associativity).
Notation "c ;;; k" := (bindM c (fun _ => k))
  (at level 61, right associativity).

(** [args.model.startswith('FeedForward')] *)
Definition is_feedforward : bool := prefix "FeedForward" (model_name args).

(** [args.model == 'Transformer' or args.model.startswith('FeedForward')] *)
Definition is_stateless : bool :=
  String.eqb (model_name args) "Transformer" || is_feedforward.

(** [ntokens], as computed at module level, in [evaluate] and in [train]. *)
Definition ntokens : Z :=
  if pad_vocab args then dictionary_len + norder args else dictionary_len.

(** [repackage_hidden]: the hidden state is detached from its history;
    its values are unchanged. *)
Definition repackage_hidden (h : Hidden) : Hidden := h.

(** *** [get_batch] *)

Definition get_batch (source : Tensor2) (i ntokens : Z) (pad_start : bool)
  : result (Tensor2 * list Z) :=
  if pad_start then
    let seq_len := Z.min (bptt args) (size0 source - i) in
    let data := slice0 source i (i + seq_len - 1) in
    padding <-
      (if pad_vocab args then
         let prefix := Py.range2 (ntokens - norder args) ntokens in
         unsqueeze_expand prefix (norder args) (size1 source)
       else full (norder args) (size1 source) pad_id) ;;
    data <- cat0 padding data ;;
    let target := flatten (slice0 source i (i + seq_len)) in
    Ok (data, target)
  else
    let seq_len := Z.min (bptt args) (size0 source - 1 - i) in
    let data := slice0 source i (i + seq_len) in
    let target := flatten (slice0 source (i + 1) (i + 1 + seq_len)) in
    Ok (data, target).

(** *** [evaluate] *)

Fixpoint evaluate_loop (m : Model) (data_source : Tensor2) (starts : list Z)
  (hidden : option Hidden) (total_loss : float) : result float :=
  match starts with
  | [] => Ok total_loss
  | i :: starts' =>
      w <- get_batch data_source i ntokens is_feedforward ;;
      let (loss, hidden') := eval_forward_loss m (fst w) hidden (snd w) in
      evaluate_loop m data_source starts' (option_map repackage_hidden hidden')
        (total_loss + PyFloat.of_int (size0 (fst w)) * loss)%float
  end.

Definition evaluate (m : Model) (data_source : Tensor2) : result float :=
  let hidden :=
    if negb is_stateless then Some (init_hidden m (eval_batch_size args))
    else None in
  starts <- Py.range 0 (size0 data_source - 1) (bptt args) ;;
  total_loss <- evaluate_loop m data_source starts hidden 0%float ;;
  PyFloat.div_int total_loss (size0 data_source - 1).

(** *** [train] *)

(** The parameter update at the end of a training step. *)
Definition update_parameters : M unit :=
  fun g =>
    if String.eqb (optim args) "sgd" then
      let m' := map (fun p => mkParam
                                (add_ (p_data p) (p_grad p) (- lr g)%float)
                                (p_grad p)) (model g) in
      (mkGlobals m' (lr g) (optimizer g) (best_val_loss g)
                 (patience_count g) (save_file g) (trace g), Ok tt)
    else
      match optimizer g with
      | None => (g, Raise NameError)
      | Some o =>
          let (o', m') := adamw_step o (model g) in
          (mkGlobals m' (lr g) (Some o') (best_val_loss g)
                     (patience_count g) (save_file g) (trace g), Ok tt)
      end.

Definition train_window (train_data : Tensor2) (i : Z) (hidden : option Hidden)
  : M (option Hidden) :=
  w <<- lift (get_batch train_data i ntokens is_feedforward) ;;
  g <<- get ;;
  let (m1, hidden') :=
    train_forward_backward (model g) (fst w)
                           (option_map repackage_hidden hidden) (snd w) in
  let m2 := if (0 <? clip args)%float then clip_grad_norm_ m1 (clip args)
            else m1 in
  put (mkGlobals m2 (lr g) (optimizer g) (best_val_loss g)
                 (patience_count g) (save_file g) (trace g)) ;;;
  update_parameters ;;;
  ret hidden'.

Fixpoint train_loop (train_data : Tensor2) (starts : list Z)
  (hidden : option Hidden) : M unit :=
  match starts with
  | [] => ret tt
  | i :: starts' =>
      hidden' <<- train_window train_data i hidden ;;
      if dry_run args then ret tt
      else train_loop train_data starts' hidden'
  end.

Definition train (train_data : Tensor2) (start_batch end_batch : Z) : M unit :=
  g <<- get ;;
  let hidden :=
    if negb is_stateless then Some (init_hidden (model g) (batch_size args))
    else None in
  print (StartTraining start_batch end_batch) ;;;
  starts <<- lift (Py.range start_batch end_batch (bptt args)) ;;
  train_loop train_data starts hidden.

(** *** The optimizer (lines 251-256) *)

Definition setup_optimizer : M unit :=
  fun g =>
    let g1 := mkGlobals (model g) (lr_init args) (optimizer g)
                        (best_val_loss g) (patience_count g) (save_file g)
                        (trace g) in
    if String.eqb (optim args) "adamw" then
      (mkGlobals (model g1) (lr g1)
                 (Some (AdamW (lr g1) (weight_decay args)))
                 (best_val_loss g1) (patience_count g1) (save_file g1)
                 (trace g1), Ok tt)
    else if String.eqb (optim args) "sgd" then (g1, Ok tt)
    else (g1, Raise (AssertionError "Specified optimizer not supported")).

(** [best_val_loss = None; patience_count = 0] *)
Definition init_counters : M unit :=
  fun g => (mkGlobals (model g) (lr g) (optimizer g) None 0 (save_file g)
                      (trace g), Ok tt).

(** *** The decision taken after a validation (lines 278-290) *)

(** [not best_val_loss or val_loss < best_val_loss] *)
Definition improved (best : option float) (val_loss : float) : bool :=
  match best with
  | None => true
  | Some b => negb (PyFloat.truthy b) || (val_loss <? b)%float
  end.

Definition checkpoint_or_decay (val_loss : float) : M unit :=
  fun g =>
    if improved (best_val_loss g) val_loss then
      (mkGlobals (model g) (lr g) (optimizer g) (Some val_loss) 0
                 (Some (model g)) (trace g ++ [SaveModel (model g)]), Ok tt)
    else if patience_count g =? patience args then
      if (lr_decay_rate args =? 0)%float then (g, Raise ZeroDivisionError)
      else
        let lr' := (lr g / lr_decay_rate args)%float in
        (mkGlobals (model g) lr' (optimizer g) (best_val_loss g) 0
                   (save_file g) (trace g ++ [DecayLR lr']), Ok tt)
    else
      (mkGlobals (model g) (lr g) (optimizer g) (best_val_loss g)
                 (patience_count g + 1) (save_file g) (trace g), Ok tt).

(** Lines 292-294: the optimizer is given the current learning rate. *)
Definition propagate_lr : M unit :=
  fun g =>
    if negb (String.eqb (optim args) "sgd") then
      match optimizer g with
      | None => (g, Raise NameError)
      | Some o =>
          let groups := map (fun pg => mkParamGroup (lr g) (pg_weight_decay pg))
                            (param_groups o) in
          (mkGlobals (model g) (lr g) (Some (mkOptimizer groups (opt_state o)))
                     (best_val_loss g) (patience_count g) (save_file g)
                     (trace g), Ok tt)
      end
    else (g, Ok tt).

(** *** The training loop (lines 261-294) *)

Fixpoint for_each {A : Type} (l : list A) (body : A -> M unit) : M unit :=
  match l with
  | [] => ret tt
  | a :: l' => body a ;;; for_each l' body
  end.

(** One pass of the inner loop: train on a sub-interval, validate, decide. *)
Definition sub_epoch (train_data val_data : Tensor2) (train_intervals : list Z)
  (epoch i : Z) : M unit :=
  start_batch <<- lift (Py.getitem train_intervals i) ;;
  end_batch <<- lift (Py.getitem train_intervals (i + 1)) ;;
  train train_data start_batch end_batch ;;;
  g <<- get ;;
  val_loss <<- lift (evaluate (model g) val_data) ;;
  ppl <<- lift (math_exp val_loss) ;;
  print (EndOfEpoch epoch val_loss ppl) ;;;
  checkpoint_or_decay val_loss ;;;
  propagate_lr.

(** [with open(args.save, 'rb') as f: model = torch.load(f)] *)
Definition load_best : M unit :=
  fun g =>
    match save_file g with
    | None => (g, Raise FileNotFoundError)
    | Some m => (mkGlobals m (lr g) (optimizer g) (best_val_loss g)
                           (patience_count g) (save_file g) (trace g), Ok tt)
    end.

Definition main (corpus_train corpus_valid corpus_test : list Z) : M float :=
  train_data <<- lift (batchify corpus_train (batch_size args)) ;;
  val_data <<- lift (batchify corpus_valid (eval_batch_size args)) ;;
  test_data <<- lift (batchify corpus_test (eval_batch_size args)) ;;
  setup_optimizer ;;;
  init_counters ;;;
  q <<- lift (PyFloat.truediv (size0 train_data) (train_eval_interval args)) ;;
  train_frac <<- lift (PyFloat.to_int q) ;;
  let train_intervals :=
    map (fun i => train_frac * i) (Py.range2 0 (train_eval_interval args))
    ++ [size0 train_data - 1] in
  for_each (Py.range2 1 (epochs args + 1)) (fun epoch =>
    for_each (Py.range2 0 (train_eval_interval args))
             (sub_epoch train_data val_data train_intervals epoch)) ;;;
  load_best ;;;
  g <<- get ;;
  test_loss <<- lift (evaluate (model g) test_data) ;;
  ppl <<- lift (math_exp test_loss) ;;
  print (EndOfTraining test_loss ppl) ;;;
  ret test_loss.

(** The globals when the program starts: the freshly built model and
    whatever is at [args.save]. *)
Definition start (m0 : Model) (file0 : option Model) : Globals :=
  mkGlobals m0 (lr_init args) None None 0 file0 [].

End Program.

Arguments StartTraining {FTensor} start_batch end_batch.
Arguments EndOfEpoch {FTensor} epoch val_loss ppl.
Arguments DecayLR {FTensor} lr.
Arguments EndOfTraining {FTensor} test_loss ppl.

(** ** Concrete inputs *)

(** The 26 tokens in four columns. *)
Definition alphabet_batched : Tensor2 :=
  mkTensor2 4 [[0;6;12;18];[1;7;13;19];[2;8;14;20];
               [3;9;15;21];[4;10;16;22];[5;11;17;23]].

(** The default arguments with windows of two rows. *)
Definition window_args : Args :=
  {| model_name := "FeedForward"; norder := 4; pad_vocab := false;
     optim := "adamw"; lr_init := 0x1.0624dd2f1a9fcp-10%float;
     clip := 0.25%float; lr_decay_rate := 4%float;
     weight_decay := 0x1.47ae147ae147bp-7%float;
     epochs := 100; batch_size := 128; eval_batch_size := 128;
     bptt := 2; patience := 8; train_eval_interval := 4;
     dry_run := false |}.

(** The same with the pad ids appended to the vocabulary. *)
Definition window_args_pad_vocab : Args :=
  {| model_name := "FeedForward"; norder := 4; pad_vocab := true;
     optim := "adamw"; lr_init := 0x1.0624dd2f1a9fcp-10%float;
     clip := 0.25%float; lr_decay_rate := 4%float;
     weight_decay := 0x1.47ae147ae147bp-7%float;
     epochs := 100; batch_size := 128; eval_batch_size := 128;
     bptt := 2; patience := 8; train_eval_interval := 4;
     dry_run := false |}.

(** The default arguments with a patience of two evaluations. *)
Definition patience2_args : Args :=
  {| model_name := "FeedForward"; norder := 4; pad_vocab := false;
     optim := "adamw"; lr_init := 0x1.0624dd2f1a9fcp-10%float;
     clip := 0.25%float; lr_decay_rate := 4%float;
     weight_decay := 0x1.47ae147ae147bp-7%float;
     epochs := 100; batch_size := 128; eval_batch_size := 128;
     bptt := 64; patience := 2; train_eval_interval := 4;
     dry_run := false |}.

(** A network with one scalar parameter, value 0.5 and gradient 0.25. *)
Definition toy_model : Model float := [mkParam 0.5%float 0.25%float].

(** The globals after a first validation with loss 1.0 (learning rate
    1.0, no optimizer object). *)
Definition after_first_validation : Globals float unit :=
  mkGlobals toy_model 1%float None (Some 1%float) 0 (Some toy_model)
            [SaveModel toy_model].


(** Globals whose recorded best loss is 0.0; the file holds the model
    that reached it. *)
Definition zero_best : Globals float unit :=
  mkGlobals toy_model 1%float None (Some 0%float) 3 (Some [])
            [SaveModel []].

(** Windows of two rows for a recurrent model. *)
Definition lstm_window_args : Args :=
  {| model_name := "LSTM"; norder := 4; pad_vocab := false;
     optim := "adamw"; lr_init := 0x1.0624dd2f1a9fcp-10%float;
     clip := 0.25%float; lr_decay_rate := 4%float;
     weight_decay := 0x1.47ae147ae147bp-7%float;
     epochs := 100; batch_size := 128; eval_batch_size := 128;
     bptt := 2; patience := 8; train_eval_interval := 4;
     dry_run := false |}.

(** The default arguments with plain gradient descent. *)
Definition sgd_args : Args :=
  {| model_name := "FeedForward"; norder := 4; pad_vocab := false;
     optim := "sgd"; lr_init := 0x1.0624dd2f1a9fcp-10%float;
     clip := 0.25%float; lr_decay_rate := 4%float;
     weight_decay := 0x1.47ae147ae147bp-7%float;
     epochs := 100; batch_size := 128; eval_batch_size := 128;
     bptt := 64; patience := 8; train_eval_interval := 4;
     dry_run := false |}.


(** One epoch with two validations. *)
Definition short_run_args : Args :=
  {| model_name := "FeedForward"; norder := 4; pad_vocab := false;
     optim := "sgd"; lr_init := 0x1.0624dd2f1a9fcp-10%float;
     clip := 0.25%float; lr_decay_rate := 4%float;
     weight_decay := 0x1.47ae147ae147bp-7%float;
     epochs := 1; batch_size := 128; eval_batch_size := 128;
     bptt := 64; patience := 8; train_eval_interval := 2;
     dry_run := false |}.

(** Seven tokens in one column. *)
Definition seven_rows : Tensor2 := mkTensor2 1 [[0];[1];[2];[3];[4];[5];[6]].

(** A scalar stand-in for the float tensors: [x.add_(y, alpha=a)]. *)
Definition scalar_add_ (x y a : float) : float := (x + a * y)%float.

(** A model whose loss is 1.0 on every window. *)
Definition unit_loss (m : Model float) (data : Tensor2) (h : option unit)
  (targets : list Z) : float * option unit := (1%float, h).

Definition no_hidden (m : Model float) (bsz : Z) : unit := tt.

(** Stand-ins for the remaining collaborators. *)
Definition toy_backward (m : Model float) (data : Tensor2) (h : option unit)
  (targets : list Z) : Model float * option unit := (m, h).

Definition toy_clip (m : Model float) (c : float) : Model float := m.

Definition toy_exp (f : float) : result float := Ok f.

Definition toy_adamw_step (o : Optimizer unit) (m : Model float)
  : Optimizer unit * Model float := (o, m).

(** Variants of an argument record. *)
Definition with_bptt (a : Args) (b : Z) : Args :=
  mkArgs (model_name a) (norder a) (pad_vocab a) (optim a) (lr_init a)
         (clip a) (lr_decay_rate a) (weight_decay a) (epochs a)
         (batch_size a) (eval_batch_size a) b (patience a)
         (train_eval_interval a) (dry_run a).

Definition with_norder (a : Args) (n : Z) : Args :=
  mkArgs (model_name a) n (pad_vocab a) (optim a) (lr_init a)
         (clip a) (lr_decay_rate a) (weight_decay a) (epochs a)
         (batch_size a) (eval_batch_size a) (bptt a) (patience a)
         (train_eval_interval a) (dry_run a).

Definition with_patience (a : Args) (p : Z) : Args :=
  mkArgs (model_name a) (norder a) (pad_vocab a) (optim a) (lr_init a)
         (clip a) (lr_decay_rate a) (weight_decay a) (epochs a)
         (batch_size a) (eval_batch_size a) (bptt a) p
         (train_eval_interval a) (dry_run a).


Definition with_dry_run (a : Args) : Args :=
  mkArgs (model_name a) (norder a) (pad_vocab a) (optim a) (lr_init a)
         (clip a) (lr_decay_rate a) (weight_decay a) (epochs a)
         (batch_size a) (eval_batch_size a) (bptt a) (patience a)
         (train_eval_interval a) true.


Definition with_interval (a : Args) (n : Z) : Args :=
  mkArgs (model_name a) (norder a) (pad_vocab a) (optim a) (lr_init a)
         (clip a) (lr_decay_rate a) (weight_decay a) (epochs a)
         (batch_size a) (eval_batch_size a) (bptt a) (patience a)
         n (dry_run a).

(** Plain gradient descent with windows of two rows. *)
Definition sgd_window_args : Args := with_bptt sgd_args 2.

(** The first window of the 26 tokens in pad-start mode, pad id 0. *)
Definition first_pad_window : Tensor2 :=
  mkTensor2 4 [[0;0;0;0];[0;0;0;0];[0;0;0;0];[0;0;0;0];[0;6;12;18]].

(** The first sequential window of the 26 tokens. *)
Definition first_seq_window : Tensor2 :=
  mkTensor2 4 [[0;6;12;18];[1;7;13;19]].

(** The globals with which the toy run starts. *)
Definition toy_start (a : Args) (file0 : option (Model float))
  : Globals float unit := start a unit toy_model file0.

(** ** Notions used in the statements *)

(** The decisions of consecutive validations. *)
Definition validations (args : Args) {FTensor OptState : Type}
  (val_losses : list float) : M FTensor OptState unit :=
  for_each val_losses (@checkpoint_or_decay args FTensor OptState).


(** The specification's checkpoint rule at one validation: the model is
    saved exactly when the loss is strictly below the recorded best, or
    none is recorded. *)
Definition saves_iff_strictly_lower (args : Args)
  {FTensor OptState : Type} (g : Globals FTensor OptState)
  (val_loss : float) : Prop :=
  forall g',
    checkpoint_or_decay args val_loss g = (g', Ok tt) ->
    (trace g' = trace g ++ [SaveModel (model g)]
     <-> match best_val_loss g with
         | None => True
         | Some b => (val_loss <? b)%float = true
         end).

(** Rows [a .. a+n-1] of a list of rows. *)
Definition rows_from {A : Type} (l : list A) (a n : Z) : list A :=
  firstn (Z.to_nat n) (skipn (Z.to_nat a) l).

(** The ids of the pad prefix, top to bottom: [norder] times the reserved
    pad id, or the last [norder] ids below [ntok]. *)
Definition pad_ids (args : Args) (pad_id ntok : Z) : list Z :=
  if pad_vocab args
  then map (fun k => ntok - norder args + Z.of_nat k)
           (seq 0 (Z.to_nat (norder args)))
  else repeat pad_id (Z.to_nat (norder args)).

(** The pad prefix for [m] columns: one row of [m] equal entries per id. *)
Definition pad_prefix (args : Args) (pad_id ntok : Z) (m : nat)
  : list (list Z) :=
  map (fun v => repeat v m) (pad_ids args pad_id ntok).

(** The specification's comparison of the two modes at one window
    start: the pad-start target has one more token per column than the
    sequential target. *)
Definition one_more_prediction (args : Args) (pad_id : Z) (source : Tensor2)
  (i ntok : Z) : Prop :=
  forall dp tp ds ts,
    get_batch args pad_id source i ntok true = Ok (dp, tp) ->
    get_batch args pad_id source i ntok false = Ok (ds, ts) ->
    Py.len tp = Py.len ts + size1 source.

(** The specification's invariant of a window: data and target hold the
    same number of tokens per column. *)
Definition same_token_count (args : Args) (pad_id : Z) (source : Tensor2)
  (i ntok : Z) (pad_start : bool) : Prop :=
  forall data target,
    get_batch args pad_id source i ntok pad_start = Ok (data, target) ->
    Py.len target = size0 data * size1 source.

(** The variables that the decision reads and writes are the same in
    two states. *)
Definition same_control {FTensor OptState : Type}
  (g g' : Globals FTensor OptState) : Prop :=
  lr g' = lr g
  /\ best_val_loss g' = best_val_loss g
  /\ patience_count g' = patience_count g
  /\ save_file g' = save_file g.



(** The targets of the windows at [starts], one after the other. *)
Definition window_targets (args : Args) (pad_id : Z) (source : Tensor2)
  (ntok : Z) (pad_start : bool) (starts : list Z) : list Z :=
  concat (map (fun i =>
                 match get_batch args pad_id source i ntok pad_start with
                 | Ok w => snd w
                 | Raise _ => []
                 end) starts).


(** A recorded best loss comes with a saved model. *)
Definition checkpoint_present {FTensor OptState : Type}
  (g : Globals FTensor OptState) : Prop :=
  best_val_loss g <> None -> save_file g <> None.


(** Started in a state with [P], the computation ends in a state with
    [Q], or raises an exception with [E]. *)
Definition triple {FTensor OptState A : Type}
  (P : Globals FTensor OptState -> Prop) (c : M FTensor OptState A)
  (Q : Globals FTensor OptState -> Prop) (E : exn -> Prop) : Prop :=
  forall g g' r,
    P g -> c g = (g', r) ->
    match r with
    | Ok _ => Q g'
    | Raise e => E e
    end.

(** The number of learning-rate decays a trace reports. *)
Fixpoint decays {FTensor : Type} (tr : list (Event FTensor)) : nat :=
  match tr with
  | [] => 0
  | DecayLR _ :: tr' => S (decays tr')
  | _ :: tr' => decays tr'
  end.


(** * Properties *)

(** ** The Python built-ins on small inputs *)

Example slice_examples :
  Py.slice [10; 11; 12; 13] 1 3 = [11; 12]
  /\ Py.slice [10; 11; 12; 13] 2 9 = [12; 13]
  /\ Py.slice [10; 11; 12; 13] 0 (-1) = [10; 11; 12]
  /\ Py.slice [10; 11; 12; 13] 3 2 = [].
Proof. repeat split. Qed.

Example range_examples :
  Py.range 0 5 2 = Ok [0; 2; 4]
  /\ Py.range 0 6 2 = Ok [0; 2; 4]
  /\ Py.range 0 5 (-2) = Ok []
  /\ Py.range 0 (-1) (-1) = Ok [0]
  /\ Py.range 0 5 0 = Raise ValueError
  /\ Py.range2 26 30 = [26; 27; 28; 29].
Proof. repeat split. Qed.

Example float_examples :
  PyFloat.truediv 7 4 = Ok 1.75%float
  /\ (q <- PyFloat.truediv 7 4 ;; PyFloat.to_int q) = Ok 1
  /\ PyFloat.to_int (-2.5)%float = Ok (-2)
  /\ PyFloat.truediv 7 0 = Raise ZeroDivisionError
  /\ PyFloat.truthy 0%float = false
  /\ PyFloat.truthy (-0)%float = false
  /\ PyFloat.truthy nan = true.
Proof. repeat split. Qed.

Example batchify_examples :
  batchify alphabet 0 = Raise ZeroDivisionError
  /\ batchify alphabet (-2) = Raise RuntimeError
  /\ batchify [1; 2; 3] 4 = Ok (mkTensor2 4 []).
Proof. repeat split. Qed.

(** ** Lists *)

Lemma map_nth_seq (l : list Z) :
  map (fun k => nth k l 0) (seq 0 (length l)) = l.
Proof.
  induction l as [|a l IH]; [reflexivity|].
  simpl. f_equal. rewrite <- seq_shift, map_map. exact IH.
Qed.

Lemma firstn_skipn_firstn {A : Type} (n m k : nat) (l : list A) :
  (m + n <= k)%nat -> firstn n (skipn m (firstn k l)) = firstn n (skipn m l).
Proof.
  intros H. rewrite skipn_firstn_comm, firstn_firstn.
  f_equal. lia.
Qed.

Lemma skipn_skipn_add {A : Type} (n m : nat) (l : list A) :
  skipn n (skipn m l) = skipn (m + n) l.
Proof.
  revert l. induction m as [|m IH]; intros l; [reflexivity|].
  destruct l as [|a l]; [now rewrite !skipn_nil|]. simpl. apply IH.
Qed.

Lemma nth_error_firstn_skipn {A : Type} (n m k : nat) (l : list A) :
  (k < n)%nat ->
  nth_error (firstn n (skipn m l)) k = nth_error l (m + k).
Proof.
  intros H. rewrite nth_error_firstn.
  destruct (Nat.ltb_spec k n); [|lia].
  now rewrite nth_error_skipn.
Qed.

(** ** Chunks and transposition *)

Lemma chunks_length (n w : nat) (l : list Z) : length (chunks n w l) = n.
Proof.
  revert l. induction n as [|n IH]; intros l; simpl; [reflexivity|].
  now rewrite IH.
Qed.

Lemma chunks_nth (n w c : nat) (l : list Z) :
  (c < n)%nat -> nth c (chunks n w l) [] = firstn w (skipn (c * w) l).
Proof.
  revert c l. induction n as [|n IH]; intros c l Hc; [lia|].
  destruct c as [|c]; simpl; [reflexivity|].
  rewrite IH by lia. now rewrite skipn_skipn_add.
Qed.

Lemma chunks_rows_length (n w : nat) (l : list Z) :
  (n * w <= length l)%nat ->
  Forall (fun r => length r = w) (chunks n w l).
Proof.
  revert l. induction n as [|n IH]; intros l Hl; simpl; constructor.
  - rewrite length_firstn. lia.
  - apply IH. rewrite length_skipn. lia.
Qed.

Lemma chunks_concat (n w : nat) (l : list Z) :
  (n * w <= length l)%nat -> concat (chunks n w l) = firstn (n * w) l.
Proof.
  revert l. induction n as [|n IH]; intros l Hl; simpl; [reflexivity|].
  rewrite IH by (rewrite length_skipn; lia).
  rewrite <- (firstn_skipn w l) at 3.
  rewrite firstn_app, firstn_firstn, length_firstn.
  replace (Nat.min (w + n * w) w) with w by lia.
  replace (w + n * w - Nat.min w (length l))%nat with (n * w)%nat by lia.
  reflexivity.
Qed.

Lemma column_length (x : Tensor2) (c : nat) :
  length (column x c) = length (rows x).
Proof. unfold column. apply length_map. Qed.

Lemma t_rows_length (x : Tensor2) : length (rows (t x)) = dim1 x.
Proof. simpl. now rewrite length_map, length_seq. Qed.

Lemma t_wf (x : Tensor2) : wf (t x).
Proof.
  unfold wf. simpl. apply Forall_forall. intros r Hr.
  apply in_map_iff in Hr. destruct Hr as [c [<- _]]. apply column_length.
Qed.

(** The columns of the transpose are the rows of the original. *)
Lemma t_column (x : Tensor2) (c : nat) :
  wf x -> (c < length (rows x))%nat ->
  column (t x) c = nth c (rows x) [].
Proof.
  intros Hwf Hc. unfold column at 1. simpl. rewrite map_map.
  assert (Hlen : length (nth c (rows x) []) = dim1 x).
  { unfold wf in Hwf. rewrite Forall_forall in Hwf.
    apply Hwf, nth_In, Hc. }
  rewrite <- Hlen.
  rewrite <- (map_nth_seq (nth c (rows x) [])) at 2.
  apply map_ext. intros k. unfold column.
  rewrite (nth_indep _ 0 ((fun r => nth k r 0) []))
    by now rewrite length_map.
  exact (map_nth (fun r => nth k r 0) (rows x) [] c).
Qed.

Lemma t_columns (x : Tensor2) :
  wf x -> map (column (t x)) (seq 0 (length (rows x))) = rows x.
Proof.
  intros Hwf.
  rewrite <- (map_ext_in (fun c => nth c (rows x) [])).
  - clear Hwf. induction (rows x) as [|r l IH]; [reflexivity|].
    simpl. f_equal. rewrite <- seq_shift, map_map. exact IH.
  - intros c Hc. apply in_seq in Hc. symmetry. apply t_column; [assumption|lia].
Qed.

(** ** [batchify] *)

Lemma batchify_eq (data : list Z) (B : Z) :
  1 <= B ->
  let q := Z.to_nat (Py.len data / B) in
  let b := Z.to_nat B in
  batchify data B =
  Ok (t (mkTensor2 q (chunks b q (firstn (q * b) data)))).
Proof.
  intros HB q b. unfold batchify, Py.floordiv.
  assert (HN : 0 <= Py.len data) by (unfold Py.len; lia).
  assert (Hq : 0 <= Py.len data / B) by (apply Z.div_pos; lia).
  assert (Hle : Py.len data / B * B <= Py.len data)
    by (rewrite Z.mul_comm; apply Z.mul_div_le; lia).
  destruct (Z.eqb_spec B 0) as [|_]; [lia|]. cbn [bind].
  unfold narrow. cbn [Z.ltb Z.compare].
  repeat match goal with
         | |- context [?a <? ?c] => destruct (Z.ltb_spec a c); try lia
         end.
  cbn [orb bind skipn Z.to_nat].
  assert (Hlen : Py.len (firstn (Z.to_nat (Py.len data / B * B)) data)
                 = Py.len data / B * B).
  { unfold Py.len in *. rewrite length_firstn. lia. }
  unfold view2. rewrite Hlen, Z.mod_mul, Z.div_mul by lia.
  destruct (Z.leb_spec B 0); [lia|]. cbn [orb negb Z.eqb bind].
  do 4 f_equal. subst q b. f_equal. lia.
Qed.

(** C3: [batchify] yields floor(N/B) rows and B columns; the columns are
    the B consecutive pieces of floor(N/B) tokens of the stream, so that
    exactly the last N mod B tokens are left out; on the 26 tokens
    0..25 with B = 4 this is a 6 x 4 tensor without the tokens 24, 25. *)
Theorem batchify_shape :
  (forall (data : list Z) (B : Z),
      1 <= B ->
      exists x,
        batchify data B = Ok x
        /\ size0 x = Py.len data / B
        /\ size1 x = B
        /\ wf x
        /\ (forall c, (c < Z.to_nat B)%nat ->
              column x c =
              firstn (Z.to_nat (Py.len data / B))
                     (skipn (c * Z.to_nat (Py.len data / B)) data))
        /\ concat (map (column x) (seq 0 (Z.to_nat B))) =
           firstn (Z.to_nat (Py.len data - Py.len data mod B)) data)
  /\ batchify alphabet 4 =
     Ok (mkTensor2 4 [[0;6;12;18];[1;7;13;19];[2;8;14;20];
                      [3;9;15;21];[4;10;16;22];[5;11;17;23]]).
Proof.
  split; [|reflexivity].
  intros data B HB.
  assert (HN : 0 <= Py.len data) by (unfold Py.len; lia).
  assert (Hq : 0 <= Py.len data / B) by (apply Z.div_pos; lia).
  assert (Hle : Py.len data / B * B <= Py.len data)
    by (rewrite Z.mul_comm; apply Z.mul_div_le; lia).
  pose proof (batchify_eq data HB) as E. cbv zeta in E.
  set (q := Z.to_nat (Py.len data / B)) in *.
  set (b := Z.to_nat B) in *.
  set (d := firstn (q * b) data) in *.
  assert (Hqb : (q * b <= length data)%nat).
  { subst q b. unfold Py.len in *. nia. }
  assert (Hd : length d = (q * b)%nat).
  { subst d. rewrite length_firstn. lia. }
  assert (Hwf : wf (mkTensor2 q (chunks b q d))).
  { unfold wf. cbn [rows dim1]. apply chunks_rows_length. lia. }
  eexists. split; [exact E|].
  split; [|split; [|split; [apply t_wf|split]]].
  - unfold size0. unfold Py.len at 1. rewrite t_rows_length. cbn [dim1].
    subst q. lia.
  - unfold size1. cbn [t dim1 rows]. rewrite chunks_length. subst b. lia.
  - intros c Hc.
    rewrite t_column; cbn [rows]; rewrite ?chunks_length; try assumption.
    rewrite chunks_nth by assumption. subst d.
    apply firstn_skipn_firstn. nia.
  - pose proof (t_columns Hwf) as Hc. cbn [rows] in Hc.
    rewrite chunks_length in Hc. rewrite Hc.
    rewrite chunks_concat by lia. subst d.
    rewrite firstn_firstn. f_equal.
    rewrite Z.mod_eq by lia. subst q b. lia.
Qed.

(** ** Slices *)

Lemma slice_inside {A : Type} (l : list A) (a b : Z) :
  0 <= a -> a <= b -> b <= Py.len l ->
  Py.slice l a b = firstn (Z.to_nat (b - a)) (skipn (Z.to_nat a) l).
Proof.
  intros Ha Hab Hb. unfold Py.slice, Py.clip.
  destruct (Z.ltb_spec a 0); [lia|].
  destruct (Z.ltb_spec b 0); [lia|].
  now rewrite !Z.min_l by lia.
Qed.

Lemma range2_length (a b : Z) : Py.len (Py.range2 a b) = Z.max 0 (b - a).
Proof. unfold Py.len, Py.range2. rewrite length_map, length_seq. lia. Qed.

(** ** [get_batch] *)

Section Windows.

Variable args : Args.
Variable pad_id : Z.

(** The result of a sequential window. *)
Lemma get_batch_seq_eq (source : Tensor2) (i ntok : Z) :
  0 <= bptt args ->
  0 <= i < size0 source - 1 ->
  let L := Z.min (bptt args) (size0 source - 1 - i) in
  get_batch args pad_id source i ntok false =
  Ok (mkTensor2 (dim1 source) (rows_from (rows source) i L),
      concat (rows_from (rows source) (i + 1) L)).
Proof.
  intros Hb Hi. cbv zeta. unfold size0 in *.
  set (L := Z.min (bptt args) (Py.len (rows source) - 1 - i)).
  assert (HL : 0 <= L <= Py.len (rows source) - 1 - i) by (subst L; lia).
  unfold get_batch, flatten, slice0, rows_from, size0. cbn [rows dim1].
  fold L.
  rewrite !slice_inside by lia.
  now replace (i + L - i) with L by lia;
      replace (i + 1 + L - (i + 1)) with L by lia.
Qed.

(** The result of a pad-start window. *)
Lemma get_batch_pad_eq (source : Tensor2) (i ntok : Z) :
  0 < bptt args ->
  0 <= norder args ->
  0 <= i < size0 source ->
  let L := Z.min (bptt args) (size0 source - i) in
  get_batch args pad_id source i ntok true =
  Ok (mkTensor2 (dim1 source)
                (pad_prefix args pad_id ntok (dim1 source)
                 ++ rows_from (rows source) i (L - 1)),
      concat (rows_from (rows source) i L)).
Proof.
  intros Hb Hn Hi. cbv zeta. unfold size0 in *.
  set (L := Z.min (bptt args) (Py.len (rows source) - i)).
  assert (HL : 1 <= L <= Py.len (rows source) - i) by (subst L; lia).
  unfold get_batch, flatten, slice0, rows_from, pad_prefix, pad_ids, size0.
  cbn [rows dim1]. fold L.
  rewrite !slice_inside by lia.
  replace (i + L - 1 - i) with (L - 1) by lia.
  replace (i + L - i) with L by lia.
  assert (Hm : Z.to_nat (size1 source) = dim1 source)
    by (unfold size1; lia).
  destruct (pad_vocab args).
  - unfold unsqueeze_expand. rewrite range2_length.
    replace (ntok - (ntok - norder args)) with (norder args) by lia.
    destruct (Z.ltb_spec (size1 source) 0); [unfold size1 in *; lia|].
    rewrite Z.max_r, Z.eqb_refl by lia. cbn [orb bind]. rewrite Hm.
    unfold cat0. cbn [dim1 rows]. rewrite Nat.eqb_refl.
    unfold Py.range2.
    now replace (ntok - (ntok - norder args)) with (norder args) by lia.
  - unfold full.
    destruct (Z.ltb_spec (norder args) 0); [lia|].
    destruct (Z.ltb_spec (size1 source) 0); [unfold size1 in *; lia|].
    cbn [orb bind]. rewrite Hm.
    unfold cat0. cbn [dim1 rows]. rewrite Nat.eqb_refl.
    now rewrite map_repeat.
Qed.

Lemma rows_from_length {A : Type} (l : list A) (a n : Z) :
  0 <= a -> 0 <= n -> a + n <= Py.len l -> Py.len (rows_from l a n) = n.
Proof.
  intros Ha Hn Hl. unfold rows_from, Py.len in *.
  rewrite length_firstn, length_skipn. lia.
Qed.

Lemma rows_from_nth {A : Type} (l : list A) (a n : Z) (k : nat) :
  0 <= a -> (k < Z.to_nat n)%nat ->
  nth_error (rows_from l a n) k = nth_error l (Z.to_nat a + k).
Proof. intros Ha Hk. unfold rows_from. now apply nth_error_firstn_skipn. Qed.

Lemma pad_prefix_length (ntok : Z) (m : nat) :
  0 <= norder args -> Py.len (pad_prefix args pad_id ntok m) = norder args.
Proof.
  intros Hn. unfold Py.len, pad_prefix, pad_ids. rewrite length_map.
  destruct (pad_vocab args).
  - rewrite length_map, length_seq. lia.
  - rewrite repeat_length. lia.
Qed.

Lemma concat_length_uniform (w : nat) (rs : list (list Z)) :
  Forall (fun r => length r = w) rs ->
  length (concat rs) = (length rs * w)%nat.
Proof.
  induction 1 as [|r rs Hr _ IH]; [reflexivity|].
  simpl. rewrite length_app, IH, Hr. reflexivity.
Qed.

Lemma rows_from_wf (source : Tensor2) (a n : Z) :
  wf source ->
  Forall (fun r => length r = dim1 source) (rows_from (rows source) a n).
Proof.
  unfold wf, rows_from. intros H.
  rewrite <- (firstn_skipn (Z.to_nat a) (rows source)) in H.
  apply Forall_app in H. destruct H as [_ H].
  rewrite <- (firstn_skipn (Z.to_nat n) (skipn _ _)) in H.
  apply Forall_app in H. apply H.
Qed.

Lemma rows_from_flat_length (source : Tensor2) (a n : Z) :
  wf source -> 0 <= a -> 0 <= n -> a + n <= size0 source ->
  Py.len (concat (rows_from (rows source) a n)) = n * size1 source.
Proof.
  intros Hwf Ha Hn Hl. unfold Py.len at 1.
  rewrite (concat_length_uniform (rows_from_wf a n Hwf)).
  pose proof (rows_from_length (rows source) Ha Hn Hl) as E.
  unfold Py.len, size1 in *. nia.
Qed.

(** C4: a sequential window starting at row [i] holds the rows
    [i .. i+L-1] as data and the rows [i+1 .. i+L], flattened, as target,
    with L = min(bptt, R-1-i); L is at most bptt and the last row read,
    i+L, is a row of the tensor. *)
Theorem get_batch_sequential (source : Tensor2) (i ntok : Z) :
  0 <= bptt args ->
  0 <= i < size0 source - 1 ->
  let L := Z.min (bptt args) (size0 source - 1 - i) in
  exists data target,
    get_batch args pad_id source i ntok false = Ok (data, target)
    /\ rows data = firstn (Z.to_nat L) (skipn (Z.to_nat i) (rows source))
    /\ dim1 data = dim1 source
    /\ target =
       concat (firstn (Z.to_nat L) (skipn (Z.to_nat (i + 1)) (rows source)))
    /\ size0 data = L
    /\ L <= bptt args
    /\ i + L < size0 source
    /\ (forall k, (k < Z.to_nat L)%nat ->
          exists r r',
            nth_error (rows source) (Z.to_nat i + k) = Some r
            /\ nth_error (rows source) (Z.to_nat i + k + 1) = Some r'
            /\ nth_error (rows data) k = Some r
            /\ nth_error
                 (firstn (Z.to_nat L) (skipn (Z.to_nat (i + 1)) (rows source)))
                 k = Some r').
Proof.
  intros Hb Hi L.
  pose proof (get_batch_seq_eq source ntok Hb Hi) as E. cbv zeta in E.
  fold L in E.
  assert (HL : 0 <= L <= size0 source - 1 - i) by (subst L; lia).
  eexists _, _. split; [exact E|]. cbn [rows dim1].
  split; [reflexivity|]. split; [reflexivity|]. split; [reflexivity|].
  split; [unfold size0 in *; cbn [rows]; apply rows_from_length; lia|].
  split; [subst L; lia|]. split; [lia|].
  intros k Hk. unfold size0, Py.len in HL, Hi.
  assert (Hr : (Z.to_nat i + k < length (rows source))%nat) by lia.
  assert (Hr' : (Z.to_nat i + k + 1 < length (rows source))%nat) by lia.
  apply nth_error_Some in Hr, Hr'.
  destruct (nth_error (rows source) (Z.to_nat i + k)) as [r|] eqn:Er;
    [|congruence].
  destruct (nth_error (rows source) (Z.to_nat i + k + 1)) as [r'|] eqn:Er';
    [|congruence].
  exists r, r'. repeat split.
  - rewrite rows_from_nth by lia. exact Er.
  - rewrite nth_error_firstn_skipn by assumption.
    rewrite <- Er'. f_equal. lia.
Qed.

Lemma pad_ids_NoDup (ntok : Z) :
  pad_vocab args = true -> NoDup (pad_ids args pad_id ntok).
Proof.
  intros Hv. unfold pad_ids. rewrite Hv.
  apply NoDup_map_NoDup_ForallPairs; [|apply seq_NoDup].
  intros a b _ _ H. lia.
Qed.

(** C5: a pad-start window starting at row [i] holds, as data, [norder]
    pad rows followed by the rows [i .. i+L-2], and, as target, the rows
    [i .. i+L-1] flattened, with L = min(bptt, R-i).  Every pad row
    repeats one id: the reserved pad id without vocabulary padding,
    otherwise the k-th of the [norder] distinct ids
    ntokens-norder .. ntokens-1, which lie just past the dictionary. *)
Theorem get_batch_pad_start (source : Tensor2) (i ntok dictionary_len : Z) :
  0 < bptt args ->
  0 <= norder args ->
  0 <= i < size0 source ->
  let L := Z.min (bptt args) (size0 source - i) in
  let n := Z.to_nat (norder args) in
  exists data target ids,
    get_batch args pad_id source i ntok true = Ok (data, target)
    /\ rows data =
       map (fun v => repeat v (dim1 source)) ids
       ++ firstn (Z.to_nat (L - 1)) (skipn (Z.to_nat i) (rows source))
    /\ dim1 data = dim1 source
    /\ target =
       concat (firstn (Z.to_nat L) (skipn (Z.to_nat i) (rows source)))
    /\ 1 <= L <= bptt args
    /\ i + L <= size0 source
    /\ length ids = n
    /\ (pad_vocab args = false -> ids = repeat pad_id n)
    /\ (pad_vocab args = true ->
        NoDup ids
        /\ (forall k, (k < n)%nat ->
              nth_error ids k = Some (ntok - norder args + Z.of_nat k))
        /\ (ntok = ntokens args dictionary_len ->
            forall k, (k < n)%nat ->
              nth_error ids k = Some (dictionary_len + Z.of_nat k))).
Proof.
  intros Hb Hn Hi L n.
  pose proof (get_batch_pad_eq source ntok Hb Hn Hi) as E. cbv zeta in E.
  fold L in E.
  assert (Hnth : pad_vocab args = true ->
                 forall k, (k < n)%nat ->
                   nth_error (pad_ids args pad_id ntok) k =
                   Some (ntok - norder args + Z.of_nat k)).
  { intros Hv k Hk. unfold pad_ids. rewrite Hv.
    rewrite nth_error_map, nth_error_seq.
    fold n. destruct (Nat.ltb_spec k n); [reflexivity|lia]. }
  exists (mkTensor2 (dim1 source)
            (pad_prefix args pad_id ntok (dim1 source)
             ++ rows_from (rows source) i (L - 1))),
         (concat (rows_from (rows source) i L)),
         (pad_ids args pad_id ntok).
  split; [exact E|]. cbn [rows dim1].
  split; [reflexivity|]. split; [reflexivity|]. split; [reflexivity|].
  split; [subst L; lia|]. split; [subst L; lia|].
  split.
  { pose proof (pad_prefix_length ntok (dim1 source) Hn) as Hlen.
    unfold Py.len, pad_prefix in Hlen. rewrite length_map in Hlen.
    subst n. lia. }
  split.
  { intros Hv. unfold pad_ids. now rewrite Hv. }
  intros Hv. split; [now apply pad_ids_NoDup|]. split; [now apply Hnth|].
  intros Hnt k Hk. rewrite Hnth by assumption.
  f_equal. subst ntok. unfold ntokens. rewrite Hv. lia.
Qed.

Lemma nth_error_in_range {A : Type} (l : list A) (k : nat) :
  (k < length l)%nat -> exists a, nth_error l k = Some a.
Proof.
  intros H. apply nth_error_Some in H.
  destruct (nth_error l k) as [a|]; [now exists a|congruence].
Qed.

(** C6, amended: at a window start valid in both modes the pad-start
    target is the rows [i .. i+Lp-1] and the sequential target the rows
    [i+1 .. i+Ls]; the pad-start target begins with row [i], which the
    sequential one leaves out.  It has one row more than the sequential
    target only when the window is cut by the end of the tensor, and the
    same number of rows otherwise. *)
Theorem pad_start_vs_sequential_target (source : Tensor2) (i ntok : Z) :
  wf source ->
  0 < bptt args ->
  0 <= norder args ->
  0 <= i < size0 source - 1 ->
  let Lp := Z.min (bptt args) (size0 source - i) in
  let Ls := Z.min (bptt args) (size0 source - 1 - i) in
  exists dp tp ds ts,
    get_batch args pad_id source i ntok true = Ok (dp, tp)
    /\ get_batch args pad_id source i ntok false = Ok (ds, ts)
    /\ tp = concat (firstn (Z.to_nat Lp) (skipn (Z.to_nat i) (rows source)))
    /\ ts = concat (firstn (Z.to_nat Ls)
                           (skipn (Z.to_nat (i + 1)) (rows source)))
    /\ Py.len tp = Lp * size1 source
    /\ Py.len ts = Ls * size1 source
    /\ (exists r rest,
          nth_error (rows source) (Z.to_nat i) = Some r /\ tp = r ++ rest)
    /\ (bptt args <= size0 source - 1 - i -> Lp = Ls)
    /\ (size0 source - 1 - i < bptt args -> Lp = Ls + 1).
Proof.
  intros Hwf Hb Hn Hi Lp Ls.
  assert (Hi' : 0 <= i < size0 source) by lia.
  assert (Hb' : 0 <= bptt args) by lia.
  pose proof (get_batch_pad_eq source ntok Hb Hn Hi') as Ep.
  pose proof (get_batch_seq_eq source ntok Hb' Hi) as Es.
  cbv zeta in Ep, Es. fold Lp in Ep. fold Ls in Es.
  eexists _, _, _, _. split; [exact Ep|]. split; [exact Es|].
  split; [reflexivity|]. split; [reflexivity|].
  split; [apply rows_from_flat_length; [assumption|subst Lp; lia..]|].
  split; [apply rows_from_flat_length; [assumption|subst Ls; lia..]|].
  split; [|subst Lp Ls; lia].
  destruct (@nth_error_in_range _ (rows source) (Z.to_nat i)) as [r Hr].
  { unfold size0, Py.len in Hi. lia. }
  exists r.
  destruct (nth_error_split _ _ Hr) as (l1 & l2 & Hs & Hl1).
  destruct (Z.to_nat Lp) as [|p] eqn:Ep'; [subst Lp; lia|].
  exists (concat (firstn p l2)). split; [exact Hr|].
  unfold rows_from.
  rewrite Ep', Hs, <- Hl1, skipn_app, skipn_all, Nat.sub_diag.
  reflexivity.
Qed.

(** C7, amended: in a sequential window data and target have the same
    number L of rows and target row t is the source row that follows
    data row t.  In a pad-start window the target has L rows and the data
    norder + L - 1; its first norder rows are pad rows, target row t is
    source row i+t, and for t >= 1 the source row just before it is data
    row norder + t - 1. *)
Theorem window_alignment (source : Tensor2) (i ntok : Z) :
  (0 <= bptt args ->
   0 <= i < size0 source - 1 ->
   let L := Z.min (bptt args) (size0 source - 1 - i) in
   exists data trows,
     get_batch args pad_id source i ntok false = Ok (data, concat trows)
     /\ size0 data = L
     /\ Py.len trows = L
     /\ forall t, (t < Z.to_nat L)%nat ->
          exists r r',
            nth_error (rows source) (Z.to_nat i + t) = Some r
            /\ nth_error (rows source) (Z.to_nat i + t + 1) = Some r'
            /\ nth_error (rows data) t = Some r
            /\ nth_error trows t = Some r')
  /\
  (0 < bptt args ->
   0 <= norder args ->
   0 <= i < size0 source ->
   let L := Z.min (bptt args) (size0 source - i) in
   let n := Z.to_nat (norder args) in
   exists data trows,
     get_batch args pad_id source i ntok true = Ok (data, concat trows)
     /\ size0 data = norder args + L - 1
     /\ Py.len trows = L
     /\ (forall k, (k < n)%nat ->
           exists v, nth_error (rows data) k = Some (repeat v (dim1 source))
                     /\ nth_error (pad_ids args pad_id ntok) k = Some v)
     /\ (forall t, (t < Z.to_nat L)%nat ->
           exists r, nth_error (rows source) (Z.to_nat i + t) = Some r
                     /\ nth_error trows t = Some r)
     /\ (forall t, (1 <= t < Z.to_nat L)%nat ->
           exists r, nth_error (rows source) (Z.to_nat i + t - 1) = Some r
                     /\ nth_error (rows data) (n + t - 1) = Some r)).
Proof.
  split.
  - intros Hb Hi L.
    pose proof (get_batch_seq_eq source ntok Hb Hi) as E. cbv zeta in E.
    fold L in E.
    assert (HL : 0 <= L <= size0 source - 1 - i) by (subst L; lia).
    eexists _, _. split; [exact E|]. cbn [rows].
    split; [unfold size0 in *; cbn [rows]; apply rows_from_length; lia|].
    split; [unfold size0 in *; apply rows_from_length; lia|].
    intros t Ht. unfold size0, Py.len in HL, Hi.
    destruct (@nth_error_in_range _ (rows source) (Z.to_nat i + t))
      as [r Hr]; [lia|].
    destruct (@nth_error_in_range _ (rows source) (Z.to_nat i + t + 1))
      as [r' Hr']; [lia|].
    exists r, r'. rewrite !rows_from_nth by lia.
    repeat split; try assumption.
    rewrite <- Hr'. f_equal. lia.
  - intros Hb Hn Hi L n.
    pose proof (get_batch_pad_eq source ntok Hb Hn Hi) as E. cbv zeta in E.
    fold L in E.
    assert (HL : 1 <= L <= size0 source - i) by (subst L; lia).
    pose proof (pad_prefix_length ntok (dim1 source) Hn) as Hlen.
    eexists _, _. split; [exact E|]. cbn [rows].
    split.
    { unfold size0, Py.len in *. cbn [rows]. rewrite length_app.
      pose proof (@rows_from_length _ (rows source) i (L - 1)) as E'.
      unfold Py.len in E'. lia. }
    split; [unfold size0 in *; apply rows_from_length; lia|].
    unfold size0, Py.len in HL, Hi, Hlen.
    split; [|split].
    + intros k Hk.
      destruct (@nth_error_in_range _ (pad_ids args pad_id ntok) k)
        as [v Hv].
      { unfold pad_prefix in Hlen. rewrite length_map in Hlen. lia. }
      exists v. split; [|exact Hv].
      rewrite nth_error_app1 by lia.
      unfold pad_prefix. rewrite nth_error_map, Hv. reflexivity.
    + intros t Ht.
      destruct (@nth_error_in_range _ (rows source) (Z.to_nat i + t))
        as [r Hr]; [lia|].
      exists r. rewrite rows_from_nth by lia. now split.
    + intros t Ht.
      destruct (@nth_error_in_range _ (rows source) (Z.to_nat i + t - 1))
        as [r Hr]; [lia|].
      exists r. split; [exact Hr|].
      rewrite nth_error_app2 by lia.
      rewrite rows_from_nth by lia.
      rewrite <- Hr. f_equal. lia.
Qed.

End Windows.

(** C6, as stated, fails on a full window: with windows of two rows both
    targets at start 0 of the 6 x 4 tensor have two rows. *)
Lemma one_more_prediction_fails :
  ~ one_more_prediction window_args 0 alphabet_batched 0 26.
Proof.
  intros H. specialize (H _ _ _ _ eq_refl eq_refl).
  vm_compute in H. discriminate H.
Qed.

(** C7, as stated, fails in pad-start mode: with the default context of
    four tokens the data of the window has five rows and the target two. *)
Lemma same_token_count_fails :
  ~ same_token_count window_args 0 alphabet_batched 0 26 true.
Proof.
  intros H. specialize (H _ _ eq_refl).
  vm_compute in H. discriminate H.
Qed.

(** ** Window starts *)

(** The starts produced by [range(a, b, step)] with [a <= b]: there are
    none unless the step is positive, and each lies in [a, b). *)
Lemma range_In (a b step i : Z) (l : list Z) :
  Py.range a b step = Ok l -> a <= b -> In i l ->
  0 < step /\ a <= i < b.
Proof.
  unfold Py.range, Py.range_len. intros E Hab Hin.
  destruct (Z.eqb_spec step 0) as [|Hs]; [discriminate|].
  injection E as <-.
  apply in_map_iff in Hin. destruct Hin as (k & <- & Hk).
  apply in_seq in Hk.
  destruct (Z.ltb_spec 0 step) as [Hp|Hp].
  - destruct (Z.ltb_spec a b) as [Hlt|Hge]; [|simpl in Hk; lia].
    split; [assumption|].
    assert (Hq : Z.of_nat k <= (b - a - 1) / step) by lia.
    assert (Hm : step * ((b - a - 1) / step) <= b - a - 1)
      by (apply Z.mul_div_le; lia).
    nia.
  - destruct (Z.ltb_spec b a); [lia|]. simpl in Hk. lia.
Qed.


Section Weights.

Variable args : Args.
Variable pad_id : Z.


End Weights.

(** ** The training controller *)


Section Controller.

Variable args : Args.
Variables FTensor OptState : Type.

(** The three cases of the decision. *)
Lemma checkpoint_or_decay_improved (g : Globals FTensor OptState) (val_loss : float) :
  improved (best_val_loss g) val_loss = true ->
  checkpoint_or_decay args val_loss g =
  (mkGlobals (model g) (lr g) (optimizer g) (Some val_loss) 0
             (Some (model g)) (trace g ++ [SaveModel (model g)]), Ok tt).
Proof. intros H. unfold checkpoint_or_decay. now rewrite H. Qed.

Lemma checkpoint_or_decay_wait (g : Globals FTensor OptState) (val_loss : float) :
  improved (best_val_loss g) val_loss = false ->
  patience_count g <> patience args ->
  checkpoint_or_decay args val_loss g =
  (mkGlobals (model g) (lr g) (optimizer g) (best_val_loss g)
             (patience_count g + 1) (save_file g) (trace g), Ok tt).
Proof.
  intros H Hc. unfold checkpoint_or_decay. rewrite H.
  now destruct (Z.eqb_spec (patience_count g) (patience args)).
Qed.

Lemma checkpoint_or_decay_decay (g : Globals FTensor OptState) (val_loss : float) :
  improved (best_val_loss g) val_loss = false ->
  patience_count g = patience args ->
  (lr_decay_rate args =? 0)%float = false ->
  checkpoint_or_decay args val_loss g =
  (mkGlobals (model g) (lr g / lr_decay_rate args)%float (optimizer g)
             (best_val_loss g) 0 (save_file g)
             (trace g ++ [DecayLR (lr g / lr_decay_rate args)%float]),
   Ok tt).
Proof.
  intros H Hc Hd. unfold checkpoint_or_decay. rewrite H, Hd.
  now destruct (Z.eqb_spec (patience_count g) (patience args)).
Qed.

Lemma list_neq_app_cons {A : Type} (l : list A) (a : A) : l <> l ++ [a].
Proof.
  intros H. apply (f_equal (@length A)) in H.
  rewrite length_app in H. simpl in H. lia.
Qed.

(** The model is saved exactly on a strictly lower loss, or when no best
    is recorded, as long as the recorded best is not zero. *)
Lemma checkpoint_iff_strictly_lower (g : Globals FTensor OptState)
  (val_loss : float) :
  (forall b, best_val_loss g = Some b -> PyFloat.truthy b = true) ->
  saves_iff_strictly_lower args g val_loss.
Proof.
  intros Hb g' E. unfold checkpoint_or_decay in E.
  assert (Hi : improved (best_val_loss g) val_loss = true <->
               match best_val_loss g with
               | None => True
               | Some b => (val_loss <? b)%float = true
               end).
  { destruct (best_val_loss g) as [b|]; [|simpl; tauto].
    simpl. rewrite (Hb b eq_refl). simpl. tauto. }
  destruct (improved (best_val_loss g) val_loss).
  - injection E as <-. cbn [trace]. split; [intros _; now apply Hi|reflexivity].
  - rewrite <- Hi.
    destruct (patience_count g =? patience args).
    + destruct (lr_decay_rate args =? 0)%float; [discriminate|].
      injection E as <-. cbn [trace]. split; [|discriminate].
      intros H. apply app_inv_head in H. discriminate.
    + injection E as <-. cbn [trace]. split; [|discriminate].
      intros H. now apply list_neq_app_cons in H.
Qed.

(** The counter is reset whenever the model is saved or the learning rate
    decayed, and only then. *)
Lemma counter_reset (g g' : Globals FTensor OptState) (val_loss : float) :
  checkpoint_or_decay args val_loss g = (g', Ok tt) ->
  (trace g' = trace g ++ [SaveModel (model g)]
   /\ save_file g' = Some (model g)
   /\ best_val_loss g' = Some val_loss
   /\ patience_count g' = 0)
  \/ (trace g' = trace g ++ [DecayLR (lr g')]
      /\ lr g' = (lr g / lr_decay_rate args)%float
      /\ patience_count g' = 0)
  \/ (trace g' = trace g
      /\ lr g' = lr g
      /\ patience_count g' = patience_count g + 1).
Proof.
  unfold checkpoint_or_decay. intros E.
  destruct (improved (best_val_loss g) val_loss).
  - injection E as <-. left. repeat split.
  - destruct (patience_count g =? patience args).
    + destruct (lr_decay_rate args =? 0)%float; [discriminate|].
      injection E as <-. right. left. repeat split.
    + injection E as <-. right. right. repeat split.
Qed.

Lemma propagate_lr_control (g g' : Globals FTensor OptState) (r : result unit) :
  propagate_lr args g = (g', r) ->
  same_control g g' /\ trace g' = trace g /\ model g' = model g.
Proof.
  unfold propagate_lr, same_control. intros E.
  destruct (negb (optim args =? "sgd")%string).
  - destruct (optimizer g); injection E as <- _; repeat split.
  - injection E as <- _. repeat split.
Qed.

(** After the decision the optimizer, when there is one, holds the
    current learning rate in every parameter group. *)
Lemma propagate_lr_groups (g g' : Globals FTensor OptState) :
  propagate_lr args g = (g', Ok tt) ->
  optim args <> "sgd"%string ->
  exists o, optimizer g' = Some o
            /\ Forall (fun pg => pg_lr pg = lr g') (param_groups o).
Proof.
  unfold propagate_lr. intros E Hs. apply String.eqb_neq in Hs.
  rewrite Hs in E. cbn [negb] in E.
  destruct (optimizer g) as [o|]; [|discriminate].
  injection E as <-. eexists. split; [reflexivity|].
  cbn [param_groups lr]. apply Forall_forall. intros pg Hpg.
  apply in_map_iff in Hpg. now destruct Hpg as (pg0 & <- & _).
Qed.

(** C10: when the recorded best loss is exactly 0.0 the next validation
    takes the improvement branch whatever its loss: the model is saved,
    the loss recorded as best and the counter reset. *)
Theorem zero_best_always_improves (g : Globals FTensor OptState) (val_loss : float) :
  best_val_loss g = Some 0%float ->
  improved (best_val_loss g) val_loss = true
  /\ checkpoint_or_decay args val_loss g =
     (mkGlobals (model g) (lr g) (optimizer g) (Some val_loss) 0
                (Some (model g)) (trace g ++ [SaveModel (model g)]), Ok tt).
Proof.
  intros Hb.
  assert (H : improved (best_val_loss g) val_loss = true)
    by (rewrite Hb; reflexivity).
  split; [exact H|]. now apply checkpoint_or_decay_improved.
Qed.


End Controller.


(** With a patience of two, two validations that do not improve bring
    the counter to the threshold; an improvement at the next validation
    resets it, and the learning rate was never divided. *)
Lemma threshold_reached_without_decay :
  exists g2 g3,
    validations patience2_args [2%float; 2%float] after_first_validation
    = (g2, Ok tt)
    /\ patience_count g2 = patience patience2_args
    /\ validations patience2_args [2%float; 2%float; 0.5%float]
                   after_first_validation = (g3, Ok tt)
    /\ patience_count g3 = 0
    /\ lr g2 = lr after_first_validation
    /\ lr g3 = lr after_first_validation
    /\ trace g3 = [SaveModel toy_model; SaveModel toy_model].
Proof. eexists _, _. repeat split. Qed.

(** C2 at a recorded best of 0.0: a validation with loss 1.0 overwrites
    the saved model and replaces the recorded best. *)
Lemma worse_loss_overwrites_zero_best :
  (1 <? 0)%float = false
  /\ checkpoint_or_decay default_args 1%float zero_best =
     (mkGlobals toy_model 1%float None (Some 1%float) 0 (Some toy_model)
                [SaveModel []; SaveModel toy_model], Ok tt)
  /\ ~ saves_iff_strictly_lower default_args zero_best 1%float.
Proof.
  split; [reflexivity|]. split; [reflexivity|].
  intros H. destruct (H _ eq_refl) as [H1 _].
  specialize (H1 eq_refl). vm_compute in H1. discriminate H1.
Qed.

(** ** The optimizer *)

Section Run.

Variable args : Args.
Variables dictionary_len pad_id : Z.
Variable FTensor : Type.
Variable add_ : FTensor -> FTensor -> float -> FTensor.
Variable Hidden : Type.
Variable init_hidden : Model FTensor -> Z -> Hidden.
Variable eval_forward_loss :
  Model FTensor -> Tensor2 -> option Hidden -> list Z -> float * option Hidden.
Variable train_forward_backward :
  Model FTensor -> Tensor2 -> option Hidden -> list Z ->
  Model FTensor * option Hidden.
Variable clip_grad_norm_ : Model FTensor -> float -> Model FTensor.
Variable math_exp : float -> result float.
Variable OptState : Type.
Variable adamw_state0 : OptState.
Variable adamw_step :
  Optimizer OptState -> Model FTensor -> Optimizer OptState * Model FTensor.

Lemma batchify_ok (data : list Z) (B : Z) :
  1 <= B -> exists x, batchify data B = Ok x.
Proof. intros HB. eexists. apply (batchify_eq data HB). Qed.

Lemma same_control_refl (g : Globals FTensor OptState) : same_control g g.
Proof. repeat split. Qed.

Lemma same_control_trans (g1 g2 g3 : Globals FTensor OptState) :
  same_control g1 g2 -> same_control g2 g3 -> same_control g1 g3.
Proof.
  unfold same_control. intros (A1 & A2 & A3 & A4) (B1 & B2 & B3 & B4).
  repeat split; congruence.
Qed.

Lemma update_parameters_control (g g' : Globals FTensor OptState)
  (r : result unit) :
  update_parameters args add_ adamw_step g = (g', r) -> same_control g g'.
Proof.
  unfold update_parameters. intros E.
  destruct (optim args =? "sgd")%string.
  - injection E as <- _. repeat split.
  - destruct (optimizer g) as [o|].
    + destruct (adamw_step o (model g)). injection E as <- _. repeat split.
    + injection E as <- _. repeat split.
Qed.

Lemma train_window_control (train_data : Tensor2) (i : Z)
  (hidden : option Hidden) (g g' : Globals FTensor OptState)
  (r : result (option Hidden)) :
  train_window args dictionary_len pad_id add_ train_forward_backward
               clip_grad_norm_ adamw_step train_data i hidden g = (g', r) ->
  same_control g g'.
Proof.
  unfold train_window, bindM, lift, get, put, ret. intros E.
  destruct (get_batch _ _ _ _ _ _) as [w|e].
  - destruct (train_forward_backward _ _ _ _) as [m1 h1].
    match type of E with
    | context [update_parameters _ _ _ ?g0] =>
        destruct (update_parameters args add_ adamw_step g0)
          as [g1 [[]|e]] eqn:U;
        apply update_parameters_control in U
    end; injection E as <- _; exact U.
  - injection E as <- _. apply same_control_refl.
Qed.

Lemma train_loop_control (train_data : Tensor2) (starts : list Z) :
  forall (hidden : option Hidden) (g g' : Globals FTensor OptState)
         (r : result unit),
    train_loop args dictionary_len pad_id add_ train_forward_backward
               clip_grad_norm_ adamw_step train_data starts hidden g
    = (g', r) ->
    same_control g g'.
Proof.
  induction starts as [|i starts IH]; intros hidden g g' r E.
  - injection E as <- _. apply same_control_refl.
  - cbn [train_loop] in E. unfold bindM at 1 in E.
    destruct (train_window _ _ _ _ _ _ _ _ _ _ _) as [g1 [h1|e]] eqn:W;
      apply train_window_control in W.
    + destruct (dry_run args).
      * injection E as <- _. exact W.
      * eapply same_control_trans; [exact W|]. eapply IH. exact E.
    + injection E as <- _. exact W.
Qed.

(** Training reads the learning rate and leaves it, the recorded best
    loss, the counter and the saved file as they are. *)
Lemma train_control (train_data : Tensor2) (start_batch end_batch : Z)
  (g g' : Globals FTensor OptState) (r : result unit) :
  train args dictionary_len pad_id add_ init_hidden train_forward_backward
        clip_grad_norm_ adamw_step train_data start_batch end_batch g
  = (g', r) ->
  same_control g g'.
Proof.
  unfold train, bindM, get, print, lift. intros E.
  destruct (Py.range start_batch end_batch (bptt args)) as [starts|e].
  - apply train_loop_control in E. exact E.
  - injection E as <- _. repeat split.
Qed.

(** One pass of the inner loop changes the learning rate, the recorded
    best loss, the counter and the saved file through the decision on the
    validation loss only, and hands the resulting rate to the optimizer. *)
Lemma sub_epoch_decision (train_data val_data : Tensor2)
  (train_intervals : list Z) (epoch i : Z)
  (g g' : Globals FTensor OptState) :
  sub_epoch args dictionary_len pad_id add_ init_hidden eval_forward_loss
            train_forward_backward clip_grad_norm_ math_exp adamw_step
            train_data val_data train_intervals epoch i g = (g', Ok tt) ->
  exists g1 g2 val_loss,
    same_control g g1
    /\ evaluate args dictionary_len pad_id init_hidden eval_forward_loss
                (model g1) val_data = Ok val_loss
    /\ checkpoint_or_decay args val_loss g1 = (g2, Ok tt)
    /\ same_control g2 g'
    /\ (optim args <> "sgd"%string ->
        exists o, optimizer g' = Some o
                  /\ Forall (fun pg => pg_lr pg = lr g') (param_groups o)).
Proof.
  unfold sub_epoch, bindM, lift, get. intros E.
  destruct (Py.getitem train_intervals i) as [a|]; [|discriminate].
  destruct (Py.getitem train_intervals (i + 1)) as [b|]; [|discriminate].
  destruct (train _ _ _ _ _ _ _ _ _ _ _ _) as [g0 [[]|]] eqn:T;
    [|discriminate].
  apply train_control in T.
  destruct (evaluate _ _ _ _ _ _ _) as [val_loss|] eqn:V; [|discriminate].
  destruct (math_exp val_loss) as [ppl|]; [|discriminate].
  unfold print at 1 in E.
  match type of E with
  | context [checkpoint_or_decay _ _ ?gp] => set (g1 := gp) in *
  end.
  destruct (checkpoint_or_decay args val_loss g1) as [g2 [[]|]] eqn:D;
    [|discriminate].
  exists g1, g2, val_loss.
  split; [exact T|]. split; [exact V|]. split; [exact D|].
  split.
  { pose proof E as C. apply propagate_lr_control in C. apply C. }
  intros Hs. eapply propagate_lr_groups; eassumption.
Qed.

Lemma get_batch_ok (source : Tensor2) (i ntok : Z) (pad_start : bool) :
  0 < bptt args -> 0 <= norder args -> 0 <= i < size0 source - 1 ->
  exists w, get_batch args pad_id source i ntok pad_start = Ok w.
Proof.
  intros Hb Hn Hi. destruct pad_start.
  - eexists. apply get_batch_pad_eq; lia.
  - eexists. apply get_batch_seq_eq; lia.
Qed.

Lemma evaluate_loop_ok (m : Model FTensor) (source : Tensor2)
  (starts : list Z) :
  0 < bptt args -> 0 <= norder args ->
  (forall i, In i starts -> 0 <= i < size0 source - 1) ->
  forall hidden total,
  exists v,
    evaluate_loop args dictionary_len pad_id eval_forward_loss m source
                  starts hidden total = Ok v.
Proof.
  intros Hb Hn. induction starts as [|i starts IH]; intros Hin hidden total.
  - eexists. reflexivity.
  - cbn [evaluate_loop].
    destruct (get_batch_ok source (ntokens args dictionary_len)
                (is_feedforward args) Hb Hn (Hin i (or_introl eq_refl)))
      as [w ->].
    cbn [bind]. destruct (eval_forward_loss _ _ _ _) as [loss h'].
    apply IH. intros j Hj. apply Hin. now right.
Qed.

(** [evaluate] returns a loss on every split of at least two rows. *)
Lemma evaluate_ok (m : Model FTensor) (source : Tensor2) :
  0 < bptt args -> 0 <= norder args -> 2 <= size0 source ->
  exists v,
    evaluate args dictionary_len pad_id init_hidden eval_forward_loss m source
    = Ok v.
Proof.
  intros Hb Hn HR. unfold evaluate.
  destruct (Py.range 0 (size0 source - 1) (bptt args)) as [starts|e] eqn:E.
  2:{ unfold Py.range in E.
      destruct (Z.eqb_spec (bptt args) 0); [lia|discriminate]. }
  cbn [bind].
  match goal with
  | |- context [evaluate_loop _ _ _ _ _ _ _ ?h ?z] =>
      destruct (@evaluate_loop_ok m source starts Hb Hn
                  (fun i Hi => proj2 (@range_In _ _ _ i _ E ltac:(lia) Hi))
                  h z) as [v ->]
  end.
  cbn [bind]. unfold PyFloat.div_int.
  destruct (Z.eqb_spec (size0 source - 1) 0); [lia|]. eexists. reflexivity.
Qed.

(** A split with no rows is scored -0.0, which is false as a condition. *)
Lemma evaluate_empty_split (m : Model FTensor) (c : nat) :
  0 < bptt args ->
  evaluate args dictionary_len pad_id init_hidden eval_forward_loss m
           (mkTensor2 c []) = Ok (-0)%float
  /\ PyFloat.truthy (-0)%float = false.
Proof.
  intros Hb. split; [|reflexivity].
  unfold evaluate, Py.range, Py.range_len, size0. cbn [rows Py.len length].
  destruct (Z.eqb_spec (bptt args) 0); [lia|].
  destruct (Z.ltb_spec 0 (bptt args)); [|lia].
  reflexivity.
Qed.


End Run.

(** ** [evaluate] *)

(** C8 on seven rows with a loss of 1.0 on every window of two rows: a
    recurrent model is scored 1.0, the mean; the feed-forward model, whose
    windows are weighted by the five rows of their data, is scored 2.5. *)
Theorem evaluate_pad_start_not_the_mean :
  evaluate lstm_window_args 26 0 no_hidden unit_loss toy_model seven_rows
  = Ok 1%float
  /\ evaluate window_args 26 0 no_hidden unit_loss toy_model seven_rows
     = Ok 2.5%float.
Proof. split; vm_compute; reflexivity. Qed.

(** A step of plain gradient descent on the scalar parameter 0.5 with
    gradient 0.25 and learning rate 1.0. *)
Lemma sgd_step_example :
  update_parameters sgd_args scalar_add_ toy_adamw_step after_first_validation
  = (mkGlobals [mkParam 0.25%float 0.25%float] 1%float None (Some 1%float) 0
               (Some toy_model) [SaveModel toy_model], Ok tt).
Proof. vm_compute. reflexivity. Qed.

(** A validation corpus shorter than the evaluation batch size gives a
    split without rows: every validation is scored -0.0 and every one of
    them saves the model. *)
Lemma empty_validation_split_always_saves :
  exists g,
    main short_run_args 26 0 scalar_add_ no_hidden unit_loss toy_backward
         toy_clip toy_exp tt toy_adamw_step alphabet alphabet alphabet
         (start short_run_args unit toy_model None)
    = (g, Ok (-0)%float)
    /\ trace g =
       [StartTraining 0 0; EndOfEpoch 1 (-0)%float (-0)%float;
        SaveModel toy_model;
        StartTraining 0 (-1); EndOfEpoch 1 (-0)%float (-0)%float;
        SaveModel toy_model;
        EndOfTraining (-0)%float (-0)%float].
Proof. eexists. split; vm_compute; reflexivity. Qed.

(** * The theorems at concrete inputs *)

Lemma alphabet_batched_wf : wf alphabet_batched.
Proof. repeat constructor. Defined.

Lemma batchify_shape_witness :
  1 <= 4
  /\ exists x, batchify alphabet 4 = Ok x /\ size0 x = 6 /\ size1 x = 4.
Proof.
  assert (H : 1 <= 4) by lia.
  split; [exact H|].
  destruct (proj1 batchify_shape alphabet 4 H) as (x & E & H0 & H1 & _).
  exists x. split; [exact E|]. split; [exact H0|exact H1].
Defined.

Lemma get_batch_sequential_witness :
  exists data target,
    get_batch window_args 0 alphabet_batched 0 26 false = Ok (data, target)
    /\ rows data = [[0;6;12;18];[1;7;13;19]]
    /\ target = [1;7;13;19;2;8;14;20].
Proof.
  assert (Hb : 0 <= bptt window_args) by (simpl; lia).
  assert (Hi : 0 <= 0 < size0 alphabet_batched - 1) by (vm_compute; intuition congruence).
  destruct (@get_batch_sequential window_args 0 alphabet_batched 0 26 Hb Hi)
    as (d & tg & E & Hd & _ & Ht & _).
  exists d, tg. split; [exact E|]. split; [exact Hd|exact Ht].
Defined.

Lemma get_batch_pad_start_witness :
  exists data target ids,
    get_batch window_args_pad_vocab 0 alphabet_batched 4 30 true
    = Ok (data, target)
    /\ rows data = map (fun v => repeat v 4) ids ++ [[4;10;16;22]]
    /\ target = [4;10;16;22;5;11;17;23]
    /\ nth_error ids 0 = Some 26 /\ nth_error ids 3 = Some 29.
Proof.
  assert (Hb : 0 < bptt window_args_pad_vocab) by (simpl; lia).
  assert (Hn : 0 <= norder window_args_pad_vocab) by (simpl; lia).
  assert (Hi : 0 <= 4 < size0 alphabet_batched) by (vm_compute; intuition congruence).
  destruct (@get_batch_pad_start window_args_pad_vocab 0 alphabet_batched
              4 30 26 Hb Hn Hi)
    as (d & tg & ids & E & Hd & _ & Ht & _ & _ & _ & _ & Hv).
  destruct (Hv eq_refl) as (_ & _ & Hk).
  exists d, tg, ids. split; [exact E|]. split; [exact Hd|].
  split; [exact Ht|].
  split; [apply (Hk eq_refl 0%nat) | apply (Hk eq_refl 3%nat)];
    simpl; lia.
Defined.

Lemma pad_start_vs_sequential_target_witness :
  exists tp ts,
    Py.len tp = 2 * 4 /\ Py.len ts = 1 * 4
    /\ (exists dp, get_batch window_args 0 alphabet_batched 4 26 true
                   = Ok (dp, tp))
    /\ (exists ds, get_batch window_args 0 alphabet_batched 4 26 false
                   = Ok (ds, ts)).
Proof.
  assert (Hb : 0 < bptt window_args) by (simpl; lia).
  assert (Hn : 0 <= norder window_args) by (simpl; lia).
  assert (Hi : 0 <= 4 < size0 alphabet_batched - 1) by (vm_compute; intuition congruence).
  destruct (@pad_start_vs_sequential_target window_args 0 alphabet_batched
              4 26 alphabet_batched_wf Hb Hn Hi)
    as (dp & tp & ds & ts & Ep & Es & _ & _ & Hp & Hs & _).
  exists tp, ts. split; [exact Hp|]. split; [exact Hs|].
  split; [exists dp; exact Ep | exists ds; exact Es].
Defined.

Lemma window_alignment_witness :
  (exists data trows,
      get_batch window_args 0 alphabet_batched 0 26 false
      = Ok (data, concat trows)
      /\ size0 data = 2 /\ Py.len trows = 2)
  /\ (exists data trows,
         get_batch window_args 0 alphabet_batched 0 26 true
         = Ok (data, concat trows)
         /\ size0 data = 4 + 2 - 1 /\ Py.len trows = 2).
Proof.
  assert (Hb : 0 < bptt window_args) by (simpl; lia).
  assert (Hb' : 0 <= bptt window_args) by (simpl; lia).
  assert (Hn : 0 <= norder window_args) by (simpl; lia).
  assert (Hi : 0 <= 0 < size0 alphabet_batched - 1) by (vm_compute; intuition congruence).
  assert (Hi' : 0 <= 0 < size0 alphabet_batched) by (vm_compute; intuition congruence).
  destruct (@window_alignment window_args 0 alphabet_batched 0 26)
    as [Hs Hp].
  destruct (Hs Hb' Hi) as (d & tr & E & H1 & H2 & _).
  destruct (Hp Hb Hn Hi') as (d' & tr' & E' & H1' & H2' & _).
  split.
  - exists d, tr. split; [exact E|]. split; [exact H1|exact H2].
  - exists d', tr'. split; [exact E'|]. split; [exact H1'|exact H2'].
Defined.


Lemma zero_best_always_improves_witness :
  (1 <? 0)%float = false
  /\ checkpoint_or_decay default_args 1%float zero_best =
     (mkGlobals toy_model 1%float None (Some 1%float) 0 (Some toy_model)
                [SaveModel []; SaveModel toy_model], Ok tt).
Proof.
  split; [reflexivity|].
  apply (@zero_best_always_improves default_args float unit zero_best
           1%float eq_refl).
Defined.


(** * Further properties of the code *)

(** ** [batchify]: failures and layout *)

Lemma batchify_column (data : list Z) (B : Z) (x : Tensor2) (c : nat) :
  1 <= B -> batchify data B = Ok x -> (c < Z.to_nat B)%nat ->
  column x c = firstn (Z.to_nat (Py.len data / B))
                      (skipn (c * Z.to_nat (Py.len data / B)) data).
Proof.
  intros HB E Hc. rewrite (batchify_eq data HB) in E. cbv zeta in E.
  injection E as <-.
  assert (HN : 0 <= Py.len data) by (unfold Py.len; lia).
  assert (Hq : 0 <= Py.len data / B) by (apply Z.div_pos; lia).
  assert (Hle : Py.len data / B * B <= Py.len data)
    by (rewrite Z.mul_comm; apply Z.mul_div_le; lia).
  set (q := Z.to_nat (Py.len data / B)) in *.
  set (b := Z.to_nat B) in *.
  assert (Hqb : (q * b <= length data)%nat)
    by (subst q b; unfold Py.len in *; nia).
  rewrite t_column; cbn [rows]; rewrite ?chunks_length; try assumption.
  - rewrite chunks_nth by assumption. apply firstn_skipn_firstn. nia.
  - unfold wf. cbn [rows dim1]. apply chunks_rows_length.
    rewrite length_firstn. lia.
Qed.

Lemma batchify_rows (data : list Z) (B : Z) (x : Tensor2) :
  1 <= B -> batchify data B = Ok x ->
  size0 x = Py.len data / B /\ dim1 x = Z.to_nat B /\ wf x.
Proof.
  intros HB E. rewrite (batchify_eq data HB) in E. cbv zeta in E.
  injection E as <-.
  assert (Hq : 0 <= Py.len data / B)
    by (apply Z.div_pos; unfold Py.len; lia).
  split; [|split; [|apply t_wf]].
  - unfold size0. unfold Py.len at 1. rewrite t_rows_length. cbn [dim1]. lia.
  - cbn [t dim1 rows]. apply chunks_length.
Qed.

(** X1: [batchify] returns a tensor exactly for a positive batch size; a
    batch size of zero raises ZeroDivisionError and a negative one
    RuntimeError, whatever the stream. *)
Theorem batchify_raises (data : list Z) (bsz : Z) :
  (1 <= bsz -> exists x, batchify data bsz = Ok x)
  /\ (bsz = 0 -> batchify data bsz = Raise ZeroDivisionError)
  /\ (bsz < 0 -> batchify data bsz = Raise RuntimeError).
Proof.
  split; [|split].
  - intros HB. eexists. apply (batchify_eq data HB).
  - intros ->. reflexivity.
  - intros HB. unfold batchify, Py.floordiv.
    destruct (Z.eqb_spec bsz 0); [lia|]. cbn [bind].
    unfold narrow. cbn [Z.ltb Z.compare].
    set (len := Py.len data / bsz * bsz).
    destruct (false || (Py.len data <? 0) || (len <? 0)
              || (Py.len data <? 0 + len)); [reflexivity|].
    cbn [bind]. unfold view2.
    destruct (Z.leb_spec bsz 0); [reflexivity|lia].
Qed.

(** ** [get_batch]: failures and shapes *)

Lemma Forall_slice {A : Type} (P : A -> Prop) (l : list A) (a b : Z) :
  Forall P l -> Forall P (Py.slice l a b).
Proof.
  intros H. unfold Py.slice.
  set (n := Z.to_nat _). set (k := Z.to_nat _).
  rewrite <- (firstn_skipn k l) in H. apply Forall_app in H.
  destruct H as [_ H].
  rewrite <- (firstn_skipn n (skipn k l)) in H. apply Forall_app in H.
  apply H.
Qed.

Lemma slice_length_le {A : Type} (l : list A) (a b : Z) :
  (length (Py.slice l a b) <= length l)%nat.
Proof.
  unfold Py.slice. rewrite length_firstn, length_skipn. lia.
Qed.

Section WindowShapes.

Variable args : Args.
Variable pad_id : Z.

Lemma padding_ok (ntok m : Z) :
  0 <= norder args -> 0 <= m ->
  exists p,
    (if pad_vocab args
     then unsqueeze_expand (Py.range2 (ntok - norder args) ntok)
                           (norder args) m
     else full (norder args) m pad_id) = Ok p
    /\ dim1 p = Z.to_nat m
    /\ Forall (fun r => length r = Z.to_nat m) (rows p)
    /\ Py.len (rows p) = norder args.
Proof.
  intros Hn Hm. destruct (pad_vocab args).
  - unfold unsqueeze_expand. rewrite range2_length.
    replace (ntok - (ntok - norder args)) with (norder args) by lia.
    destruct (Z.ltb_spec m 0); [lia|].
    rewrite Z.max_r, Z.eqb_refl by lia. cbn [orb].
    eexists. split; [reflexivity|]. cbn [dim1 rows].
    split; [reflexivity|]. split.
    + apply Forall_forall. intros r Hr. apply in_map_iff in Hr.
      destruct Hr as (v & <- & _). apply repeat_length.
    + unfold Py.len, Py.range2. rewrite !length_map, length_seq. lia.
  - unfold full.
    destruct (Z.ltb_spec (norder args) 0); [lia|].
    destruct (Z.ltb_spec m 0); [lia|]. cbn [orb].
    eexists. split; [reflexivity|]. cbn [dim1 rows].
    split; [reflexivity|]. split.
    + apply Forall_forall. intros r Hr. apply repeat_spec in Hr.
      subst r. apply repeat_length.
    + unfold Py.len. rewrite repeat_length. lia.
Qed.

Lemma padding_shape (ntok m : Z) (p : Tensor2) :
  0 <= m ->
  (if pad_vocab args
   then unsqueeze_expand (Py.range2 (ntok - norder args) ntok)
                         (norder args) m
   else full (norder args) m pad_id) = Ok p ->
  dim1 p = Z.to_nat m /\ Forall (fun r => length r = Z.to_nat m) (rows p).
Proof.
  intros Hm E. destruct (pad_vocab args).
  - unfold unsqueeze_expand in E.
    destruct (m <? 0); [discriminate|].
    destruct ((norder args =? _) || (norder args =? -1)).
    + injection E as <-. cbn [dim1 rows]. split; [reflexivity|].
      apply Forall_forall. intros r Hr. apply in_map_iff in Hr.
      destruct Hr as (v & <- & _). apply repeat_length.
    + destruct ((_ =? 1) && (0 <=? norder args)); [|discriminate].
      injection E as <-. cbn [dim1 rows]. split; [reflexivity|].
      apply Forall_forall. intros r Hr. apply repeat_spec in Hr.
      subst r. apply repeat_length.
  - unfold full in E.
    destruct ((norder args <? 0) || (m <? 0)); [discriminate|].
    injection E as <-. cbn [dim1 rows]. split; [reflexivity|].
    apply Forall_forall. intros r Hr. apply repeat_spec in Hr.
    subst r. apply repeat_length.
Qed.

(** X2: the only way [get_batch] fails is a negative context size in
    pad-start mode, with RuntimeError: a sequential window and a
    pad-start window with [norder >= 0] are returned for every start and
    every window length; without vocabulary padding a negative [norder]
    always fails. *)
Theorem get_batch_fails_only (source : Tensor2) (i ntok : Z)
  (pad_start : bool) :
  (forall e,
      get_batch args pad_id source i ntok pad_start = Raise e ->
      pad_start = true /\ norder args < 0 /\ e = RuntimeError)
  /\ (pad_start = true -> pad_vocab args = false -> norder args < 0 ->
      get_batch args pad_id source i ntok pad_start = Raise RuntimeError).
Proof.
  split.
  - intros e E. destruct pad_start; [|discriminate].
    split; [reflexivity|].
    destruct (Z.ltb_spec (norder args) 0) as [Hn|Hn].
    + split; [assumption|]. unfold get_batch in E.
      destruct (pad_vocab args).
      * unfold unsqueeze_expand in E.
        destruct (size1 source <? 0); [cbn in E; congruence|].
        destruct ((norder args =? _) || (norder args =? -1)).
        -- cbn [bind] in E. unfold cat0 in E. cbn [dim1] in E.
           destruct (Nat.eqb _ _); cbn in E; [discriminate|congruence].
        -- destruct ((_ =? 1) && (0 <=? norder args)).
           ++ cbn [bind] in E. unfold cat0 in E. cbn [dim1] in E.
              destruct (Nat.eqb _ _); cbn in E; [discriminate|congruence].
           ++ cbn in E. congruence.
      * unfold full in E.
        destruct ((norder args <? 0) || (size1 source <? 0));
          [cbn in E; congruence|].
        cbn [bind] in E. unfold cat0 in E. cbn [dim1] in E.
        destruct (Nat.eqb _ _); cbn in E; [discriminate|congruence].
    + exfalso. unfold get_batch in E.
      destruct (@padding_ok ntok (size1 source) Hn) as (p & Ep & Hd & _);
        [unfold size1; lia|].
      rewrite Ep in E. cbn [bind] in E. unfold cat0 in E.
      cbn [slice0 dim1] in E. rewrite Hd in E.
      unfold size1 in E. rewrite Nat2Z.id, Nat.eqb_refl in E.
      discriminate.
  - intros -> Hv Hn. unfold get_batch. rewrite Hv. unfold full.
    destruct (Z.ltb_spec (norder args) 0); [reflexivity|lia].
Qed.

(** X3: a window of a rectangular tensor is rectangular with the same
    number of columns, in both modes and for every start and window
    length, and its target is a whole number of rows of the tensor. *)
Theorem get_batch_rectangular (source : Tensor2) (i ntok : Z)
  (pad_start : bool) (data : Tensor2) (target : list Z) :
  wf source ->
  get_batch args pad_id source i ntok pad_start = Ok (data, target) ->
  wf data
  /\ dim1 data = dim1 source
  /\ exists n, 0 <= n <= size0 source /\ Py.len target = n * size1 source.
Proof.
  intros Hwf E. unfold get_batch in E.
  assert (Ht : forall a b,
             exists n, 0 <= n <= size0 source
                       /\ Py.len (flatten (slice0 source a b))
                          = n * size1 source).
  { intros a b. exists (Py.len (Py.slice (rows source) a b)).
    split.
    - pose proof (slice_length_le (rows source) a b).
      unfold size0, Py.len. lia.
    - unfold flatten, slice0. cbn [rows]. unfold Py.len at 1.
      rewrite (@concat_length_uniform (dim1 source))
        by (apply Forall_slice, Hwf).
      unfold Py.len, size1. lia. }
  destruct pad_start.
  - match type of E with
    | context [bind ?c _] => destruct c as [p|] eqn:Ep
    end; [|discriminate].
    apply padding_shape in Ep; [|unfold size1; lia].
    destruct Ep as [Hd Hr]. unfold size1 in Hd, Hr.
    rewrite Nat2Z.id in Hd, Hr.
    cbn [bind] in E. unfold cat0 in E. cbn [slice0 dim1 rows] in E.
    rewrite Hd, Nat.eqb_refl in E. cbn [bind] in E.
    injection E as <- <-. cbn [dim1 rows]. split; [|split].
    + unfold wf. cbn [rows dim1]. apply Forall_app. split.
      * exact Hr.
      * apply Forall_slice, Hwf.
    + reflexivity.
    + apply Ht.
  - injection E as <- <-. split; [|split].
    + unfold wf. cbn [slice0 rows dim1]. apply Forall_slice, Hwf.
    + reflexivity.
    + apply Ht.
Qed.

End WindowShapes.

(** ** [batchify] and [get_batch] together *)

Lemma nth_concat_uniform (w : nat) (rs : list (list Z)) :
  Forall (fun r => length r = w) rs ->
  forall t c, (c < w)%nat ->
    nth (t * w + c) (concat rs) 0 = nth c (nth t rs []) 0.
Proof.
  induction 1 as [|r rs Hr _ IH]; intros t c Hc.
  - cbn [concat]. destruct (t * w + c)%nat, t, c; reflexivity.
  - destruct t as [|t]; cbn [concat nth].
    + apply app_nth1. lia.
    + rewrite app_nth2 by (simpl; nia).
      rewrite <- IH by assumption. f_equal. simpl. lia.
Qed.

Lemma batchify_entry (data : list Z) (B : Z) (x : Tensor2) (r c : nat) :
  1 <= B -> batchify data B = Ok x ->
  (r < Z.to_nat (Py.len data / B))%nat -> (c < Z.to_nat B)%nat ->
  nth c (nth r (rows x) []) 0
  = nth (c * Z.to_nat (Py.len data / B) + r) data 0.
Proof.
  intros HB E Hr Hc.
  pose proof (@batchify_column data B x c HB E Hc) as Hcol.
  destruct (@batchify_rows data B x HB E) as (H0 & _ & _).
  assert (Hlen : (r < length (rows x))%nat)
    by (unfold size0, Py.len in H0, Hr; lia).
  transitivity (nth r (column x c) 0).
  - unfold column.
    rewrite (nth_indep (map (fun row => nth c row 0) (rows x)) 0
                       ((fun row => nth c row 0) []))
      by now rewrite length_map.
    symmetry. exact (map_nth (fun row => nth c row 0) (rows x) [] r).
  - rewrite Hcol, nth_firstn.
    destruct (Nat.ltb_spec r (Z.to_nat (Py.len data / B))); [|lia].
    apply nth_skipn.
Qed.

Section StreamWindows.

Variable args : Args.
Variable pad_id : Z.

(** X4: in a sequential window of a batched stream, the data entry at
    row t, column c is the stream token at position c*R + i + t, and the
    target entry for it, at position t*B + c of the flat target, is the
    next token of the stream. *)
Theorem next_token_in_stream (data : list Z) (B : Z) (x : Tensor2)
  (i ntok : Z) (d : Tensor2) (tg : list Z) (t c : nat) :
  1 <= B ->
  batchify data B = Ok x ->
  0 <= bptt args ->
  0 <= i < size0 x - 1 ->
  get_batch args pad_id x i ntok false = Ok (d, tg) ->
  (Z.of_nat t < Z.min (bptt args) (size0 x - 1 - i)) ->
  (c < Z.to_nat B)%nat ->
  let R := Z.to_nat (Py.len data / B) in
  nth c (nth t (rows d) []) 0 = nth (c * R + Z.to_nat i + t) data 0
  /\ nth (t * Z.to_nat B + c) tg 0
     = nth (c * R + Z.to_nat i + t + 1) data 0.
Proof.
  intros HB Ex Hb Hi E Ht Hc R.
  destruct (@batchify_rows data B x HB Ex) as (H0 & H1 & Hwf).
  rewrite (@get_batch_seq_eq args pad_id x i ntok Hb Hi) in E.
  cbv zeta in E. injection E as <- <-. cbn [rows].
  set (L := Z.min (bptt args) (size0 x - 1 - i)) in *.
  assert (HR : Z.of_nat R = size0 x).
  { subst R. rewrite H0. apply Z2Nat.id.
    apply Z.div_pos; unfold Py.len; lia. }
  split.
  - unfold rows_from. rewrite nth_firstn.
    destruct (Nat.ltb_spec t (Z.to_nat L)); [|lia].
    rewrite nth_skipn.
    rewrite (@batchify_entry data B x _ _ HB Ex) by (fold R; lia).
    fold R. f_equal. lia.
  - rewrite <- H1.
    rewrite (@nth_concat_uniform (dim1 x) _ (@rows_from_wf x (i + 1) L Hwf))
      by lia.
    unfold rows_from. rewrite nth_firstn.
    destruct (Nat.ltb_spec t (Z.to_nat L)); [|lia].
    rewrite nth_skipn.
    rewrite (@batchify_entry data B x _ _ HB Ex) by (fold R; lia).
    fold R. f_equal. lia.
Qed.

End StreamWindows.

(** ** The windows of a split *)

Lemma firstn_add_split {A : Type} (n m : nat) (l : list A) :
  firstn (n + m) l = firstn n l ++ firstn m (skipn n l).
Proof.
  revert l. induction n as [|n IH]; intros l; [reflexivity|].
  destruct l as [|a l]; [now rewrite !firstn_nil|].
  simpl. now rewrite IH.
Qed.

Lemma tiles {A : Type} (l : list A) (s cnt : nat) :
  forall a,
    concat (map (fun k => firstn s (skipn (a + k * s) l)) (seq 0 cnt))
    = firstn (cnt * s) (skipn a l).
Proof.
  induction cnt as [|cnt IH]; intros a; [reflexivity|].
  cbn [seq map concat]. rewrite <- seq_shift, map_map.
  rewrite (map_ext _ (fun k => firstn s (skipn (a + s + k * s) l)))
    by (intros k; do 2 f_equal; lia).
  rewrite IH. replace (S cnt * s)%nat with (s + cnt * s)%nat by lia.
  rewrite firstn_add_split, skipn_skipn_add.
  now rewrite Nat.add_0_r.
Qed.

Lemma concat_map_concat {A : Type} (ll : list (list (list A))) :
  concat (map (@concat A) ll) = concat (concat ll).
Proof.
  induction ll as [|l ll IH]; [reflexivity|].
  cbn [map concat]. now rewrite concat_app, IH.
Qed.

Lemma firstn_min_length {A : Type} (n : nat) (l : list A) :
  firstn (Nat.min n (length l)) l = firstn n l.
Proof.
  destruct (Nat.le_ge_cases n (length l)).
  - now rewrite Nat.min_l.
  - rewrite Nat.min_r, !firstn_all2 by lia. reflexivity.
Qed.

Lemma range_from_zero (n s : Z) (starts : list Z) :
  0 < s -> 1 <= n ->
  Py.range 0 n s = Ok starts ->
  starts = map (fun k => Z.of_nat k * s)
               (seq 0 (Z.to_nat ((n - 1) / s + 1)))
  /\ n <= ((n - 1) / s + 1) * s
  /\ (n mod s = 0 -> ((n - 1) / s + 1) * s = n)
  /\ (n mod s <> 0 -> n + 1 <= ((n - 1) / s + 1) * s).
Proof.
  intros Hs Hn E. unfold Py.range, Py.range_len in E.
  destruct (Z.eqb_spec s 0) as [|_]; [lia|]. injection E as <-.
  destruct (Z.ltb_spec 0 s) as [_|]; [|lia].
  destruct (Z.ltb_spec 0 n) as [_|]; [|lia].
  rewrite Z.sub_0_r. split; [reflexivity|].
  pose proof (Z.div_mod (n - 1) s ltac:(lia)) as D.
  pose proof (Z.mod_pos_bound (n - 1) s Hs) as Bd.
  pose proof (Z.div_mod n s ltac:(lia)) as D'.
  pose proof (Z.mod_pos_bound n s Hs) as Bd'.
  assert (Hq : 0 <= (n - 1) / s) by (apply Z.div_pos; lia).
  assert (Hq' : 0 <= n / s) by (apply Z.div_pos; lia).
  split; [nia|]. split.
  - intros Hz. rewrite Hz in D'.
    assert (K : (n - 1) / s = n / s - 1).
    { symmetry. apply (Z.div_unique (n - 1) s (n / s - 1) (s - 1)); lia. }
    rewrite K. lia.
  - intros Hz.
    assert (K : (n - 1) / s = n / s).
    { symmetry. apply (Z.div_unique (n - 1) s (n / s) (n mod s - 1)); lia. }
    rewrite K. nia.
Qed.

Section Tiling.

Variable args : Args.
Variable pad_id : Z.

(** X5: the sequential windows that [evaluate] visits cover the split
    once: their targets, in order, are all rows but the first. *)
Theorem sequential_targets_tile (source : Tensor2) (ntok : Z)
  (starts : list Z) :
  0 < bptt args ->
  2 <= size0 source ->
  Py.range 0 (size0 source - 1) (bptt args) = Ok starts ->
  window_targets args pad_id source ntok false starts
  = concat (skipn 1 (rows source)).
Proof.
  intros Hb HR E.
  destruct (@range_from_zero (size0 source - 1) (bptt args) starts Hb
              ltac:(lia) E) as (Es & Hcov & _).
  set (s := Z.to_nat (bptt args)).
  set (cnt := Z.to_nat ((size0 source - 1 - 1) / bptt args + 1)) in *.
  assert (Hq : 0 <= (size0 source - 1 - 1) / bptt args)
    by (apply Z.div_pos; lia).
  unfold window_targets.
  rewrite (map_ext_in _ (fun i => concat (firstn s
                                     (skipn (Z.to_nat i + 1) (rows source))))).
  - rewrite Es, map_map.
    rewrite (map_ext _ (fun k => concat (firstn s
                                   (skipn (1 + k * s) (rows source)))))
      by (intros k; do 3 f_equal; subst s; nia).
    rewrite <- (map_map (fun k => firstn s (skipn (1 + k * s) (rows source)))
                        (@concat Z)).
    rewrite concat_map_concat, tiles.
    rewrite firstn_all2; [reflexivity|].
    rewrite length_skipn. unfold size0, Py.len in *. subst cnt s. nia.
  - intros i Hi.
    destruct (@range_In _ _ _ i _ E ltac:(lia) Hi) as [_ Hi'].
    rewrite get_batch_seq_eq by lia. cbn [snd]. unfold rows_from.
    f_equal. rewrite <- (firstn_min_length s). f_equal.
    + rewrite length_skipn. unfold size0, Py.len in *. subst s. lia.
    + f_equal. lia.
Qed.

(** X6: the pad-start windows that [evaluate] visits have as targets, in
    order, all rows of the split, except that the last row is left out
    when the window length divides the number of rows minus one. *)
Theorem pad_start_targets_tile (source : Tensor2) (ntok : Z)
  (starts : list Z) :
  0 < bptt args ->
  0 <= norder args ->
  2 <= size0 source ->
  Py.range 0 (size0 source - 1) (bptt args) = Ok starts ->
  ((size0 source - 1) mod bptt args <> 0 ->
   window_targets args pad_id source ntok true starts
   = concat (rows source))
  /\ ((size0 source - 1) mod bptt args = 0 ->
      window_targets args pad_id source ntok true starts
      = concat (firstn (Z.to_nat (size0 source - 1)) (rows source))).
Proof.
  intros Hb Hn HR E.
  destruct (@range_from_zero (size0 source - 1) (bptt args) starts Hb
              ltac:(lia) E) as (Es & _ & Hdiv & Hndiv).
  set (s := Z.to_nat (bptt args)).
  set (cnt := Z.to_nat ((size0 source - 1 - 1) / bptt args + 1)) in *.
  assert (Hq : 0 <= (size0 source - 1 - 1) / bptt args)
    by (apply Z.div_pos; lia).
  assert (Ht : window_targets args pad_id source ntok true starts
               = concat (firstn (cnt * s) (rows source))).
  { unfold window_targets.
    rewrite (map_ext_in _ (fun i => concat (firstn s
                                       (skipn (Z.to_nat i) (rows source))))).
    - rewrite Es, map_map.
      rewrite (map_ext _ (fun k => concat (firstn s
                                     (skipn (0 + k * s) (rows source)))))
        by (intros k; do 3 f_equal; subst s; nia).
      rewrite <- (map_map (fun k => firstn s (skipn (0 + k * s) (rows source)))
                          (@concat Z)).
      now rewrite concat_map_concat, tiles.
    - intros i Hi.
      destruct (@range_In _ _ _ i _ E ltac:(lia) Hi) as [_ Hi'].
      rewrite get_batch_pad_eq by lia. cbn [snd]. unfold rows_from.
      f_equal. rewrite <- (firstn_min_length s). f_equal.
      rewrite length_skipn. unfold size0, Py.len in *. subst s. lia. }
  rewrite Ht. split.
  - intros H. specialize (Hndiv H).
    rewrite firstn_all2; [reflexivity|].
    unfold size0, Py.len in *. subst cnt s. nia.
  - intros H. specialize (Hdiv H). do 2 f_equal.
    unfold size0, Py.len in *. subst cnt s. nia.
Qed.

End Tiling.

(** ** [evaluate]: results and failures *)

Section Evaluate.

Variable args : Args.
Variables dictionary_len pad_id : Z.
Variable FTensor : Type.
Variable Hidden : Type.
Variable init_hidden : Model FTensor -> Z -> Hidden.
Variable eval_forward_loss :
  Model FTensor -> Tensor2 -> option Hidden -> list Z -> float * option Hidden.


(** X8: with a positive window length and a context size that is not
    negative, [evaluate] returns a loss on every split of at least two
    rows, for every model. *)
Theorem evaluate_returns (m : Model FTensor) (source : Tensor2) :
  0 < bptt args -> 0 <= norder args -> 2 <= size0 source ->
  exists v,
    evaluate args dictionary_len pad_id init_hidden eval_forward_loss m source
    = Ok v.
Proof. apply evaluate_ok. Qed.

(** The outcomes of [evaluate] on degenerate input. *)
Lemma evaluate_edge_cases (m : Model FTensor) (source : Tensor2) :
  (bptt args = 0 ->
   evaluate args dictionary_len pad_id init_hidden eval_forward_loss m source
   = Raise ValueError)
  /\ (bptt args <> 0 -> size0 source = 1 ->
      evaluate args dictionary_len pad_id init_hidden eval_forward_loss m
               source = Raise ZeroDivisionError)
  /\ (0 < bptt args -> size0 source = 0 ->
      evaluate args dictionary_len pad_id init_hidden eval_forward_loss m
               source = Ok (-0)%float)
  /\ (bptt args < 0 -> 2 <= size0 source ->
      evaluate args dictionary_len pad_id init_hidden eval_forward_loss m
               source
      = Ok (0 / PyFloat.of_int (size0 source - 1))%float).
Proof.
  unfold evaluate, Py.range, Py.range_len.
  split; [|split; [|split]].
  - intros ->. reflexivity.
  - intros Hb HR. rewrite HR.
    destruct (Z.eqb_spec (bptt args) 0); [contradiction|].
    destruct (0 <? bptt args); reflexivity.
  - intros Hb HR. rewrite HR.
    destruct (Z.eqb_spec (bptt args) 0); [lia|].
    destruct (Z.ltb_spec 0 (bptt args)); [|lia]. reflexivity.
  - intros Hb HR.
    destruct (Z.eqb_spec (bptt args) 0); [lia|].
    destruct (Z.ltb_spec 0 (bptt args)); [lia|].
    destruct (Z.ltb_spec (size0 source - 1) 0); [lia|].
    cbn [Z.to_nat seq map bind evaluate_loop]. unfold PyFloat.div_int.
    destruct (Z.eqb_spec (size0 source - 1) 0); [lia|]. reflexivity.
Qed.

(** X9: [evaluate] on degenerate input: a window length of zero raises
    ValueError; a split of one row raises ZeroDivisionError; with a
    positive window length a split without rows is scored -0.0; with a
    negative window length no window is visited and a split of two or
    more rows is scored 0.0 divided by its row count minus one. *)
Theorem evaluate_degenerate (m : Model FTensor) (source : Tensor2) :
  (bptt args = 0 ->
   evaluate args dictionary_len pad_id init_hidden eval_forward_loss m source
   = Raise ValueError)
  /\ (bptt args <> 0 -> size0 source = 1 ->
      evaluate args dictionary_len pad_id init_hidden eval_forward_loss m
               source = Raise ZeroDivisionError)
  /\ (0 < bptt args -> size0 source = 0 ->
      evaluate args dictionary_len pad_id init_hidden eval_forward_loss m
               source = Ok (-0)%float)
  /\ (bptt args < 0 -> 2 <= size0 source ->
      evaluate args dictionary_len pad_id init_hidden eval_forward_loss m
               source
      = Ok (0 / PyFloat.of_int (size0 source - 1))%float).
Proof. apply evaluate_edge_cases. Qed.

(** X10: a corpus with fewer tokens than the batch size is scored -0.0,
    which counts as "no best loss yet"; a corpus with at least that many
    but fewer than twice as many tokens makes [evaluate] raise
    ZeroDivisionError. *)
Theorem evaluate_small_corpus (m : Model FTensor) (data : list Z) (B : Z) :
  1 <= B ->
  0 < bptt args ->
  exists x,
    batchify data B = Ok x
    /\ (Py.len data < B ->
        evaluate args dictionary_len pad_id init_hidden eval_forward_loss m x
        = Ok (-0)%float
        /\ improved (Some (-0)%float) 1%float = true)
    /\ (B <= Py.len data < 2 * B ->
        evaluate args dictionary_len pad_id init_hidden eval_forward_loss m x
        = Raise ZeroDivisionError).
Proof.
  intros HB Hb.
  destruct (batchify_ok data HB) as [x Ex]. exists x.
  split; [exact Ex|].
  destruct (@batchify_rows data B x HB Ex) as (H0 & _ & _).
  assert (HN : 0 <= Py.len data) by (unfold Py.len; lia).
  split.
  - intros Hlt. split; [|reflexivity].
    apply evaluate_edge_cases; [assumption|].
    rewrite H0. apply Z.div_small. lia.
  - intros Hlt. apply evaluate_edge_cases; [lia|].
    rewrite H0. symmetry.
    apply (Z.div_unique (Py.len data) B 1 (Py.len data - B)); lia.
Qed.

End Evaluate.

(** ** [train] *)

Lemma range_head (a b s : Z) :
  0 < s -> a < b -> exists rest, Py.range a b s = Ok (a :: rest).
Proof.
  intros Hs Hab. unfold Py.range, Py.range_len.
  destruct (Z.eqb_spec s 0); [lia|].
  destruct (Z.ltb_spec 0 s); [|lia]. destruct (Z.ltb_spec a b); [|lia].
  assert (Hq : 0 <= (b - a - 1) / s) by (apply Z.div_pos; lia).
  destruct (Z.to_nat ((b - a - 1) / s + 1)) as [|k] eqn:Ek; [lia|].
  cbn [seq map]. eexists. do 2 f_equal. lia.
Qed.

Lemma range_empty (a b s : Z) :
  s <> 0 -> (0 < s -> b <= a) -> (s < 0 -> a <= b) -> Py.range a b s = Ok [].
Proof.
  intros Hs Hp Hn. unfold Py.range, Py.range_len.
  destruct (Z.eqb_spec s 0); [lia|].
  destruct (Z.ltb_spec 0 s).
  - destruct (Z.ltb_spec a b); [lia|]. reflexivity.
  - destruct (Z.ltb_spec b a); [lia|]. reflexivity.
Qed.

Section Train.

Variable args : Args.
Variables dictionary_len pad_id : Z.
Variable FTensor : Type.
Variable add_ : FTensor -> FTensor -> float -> FTensor.
Variable Hidden : Type.
Variable init_hidden : Model FTensor -> Z -> Hidden.
Variable train_forward_backward :
  Model FTensor -> Tensor2 -> option Hidden -> list Z ->
  Model FTensor * option Hidden.
Variable clip_grad_norm_ : Model FTensor -> float -> Model FTensor.
Variable OptState : Type.
Variable adamw_step :
  Optimizer OptState -> Model FTensor -> Optimizer OptState * Model FTensor.





(** X12: [train] on degenerate input: with a window length of zero it
    raises ValueError, and on an interval without window starts it
    returns, in both cases after printing its opening line and without
    touching the model or the optimizer. *)
Theorem train_degenerate (train_data : Tensor2) (start_batch end_batch : Z)
  (g : Globals FTensor OptState) :
  let g1 := mkGlobals (model g) (lr g) (optimizer g) (best_val_loss g)
                      (patience_count g) (save_file g)
                      (trace g ++ [StartTraining start_batch end_batch]) in
  (bptt args = 0 ->
   train args dictionary_len pad_id add_ init_hidden train_forward_backward
         clip_grad_norm_ adamw_step train_data start_batch end_batch g
   = (g1, Raise ValueError))
  /\ (bptt args <> 0 ->
      (0 < bptt args -> end_batch <= start_batch) ->
      (bptt args < 0 -> start_batch <= end_batch) ->
      train args dictionary_len pad_id add_ init_hidden
            train_forward_backward clip_grad_norm_ adamw_step train_data
            start_batch end_batch g
      = (g1, Ok tt)).
Proof.
  intros g1. unfold train, bindM, get, print, lift. split.
  - intros Hb. unfold Py.range. rewrite Hb. reflexivity.
  - intros Hb Hp Hn. rewrite range_empty by assumption. reflexivity.
Qed.

(** X13: with [--dry-run], [train] on an interval that has a window
    start performs the training step of the first window, at
    [start_batch], and stops. *)
Theorem train_dry_run (train_data : Tensor2) (start_batch end_batch : Z)
  (g : Globals FTensor OptState) :
  dry_run args = true ->
  0 < bptt args ->
  start_batch < end_batch ->
  let g1 := mkGlobals (model g) (lr g) (optimizer g) (best_val_loss g)
                      (patience_count g) (save_file g)
                      (trace g ++ [StartTraining start_batch end_batch]) in
  let hidden :=
    if negb (is_stateless args)
    then Some (init_hidden (model g) (batch_size args)) else None in
  train args dictionary_len pad_id add_ init_hidden train_forward_backward
        clip_grad_norm_ adamw_step train_data start_batch end_batch g
  = match train_window args dictionary_len pad_id add_
                       train_forward_backward clip_grad_norm_ adamw_step
                       train_data start_batch hidden g1 with
    | (g2, Ok _) => (g2, Ok tt)
    | (g2, Raise e) => (g2, Raise e)
    end.
Proof.
  intros Hd Hb Hlt g1 hidden.
  destruct (range_head Hb Hlt) as [rest Er].
  unfold train, bindM at 1 2 3, get, print, lift. rewrite Er.
  cbn [train_loop]. unfold bindM at 1. fold g1. fold hidden.
  destruct (train_window _ _ _ _ _ _ _ _ _ _ _) as [g2 [h|e]];
    [|reflexivity].
  now rewrite Hd.
Qed.

End Train.

(** ** The decision after a validation, over many validations *)

Lemma decays_app {FTensor : Type} (tr tr' : list (Event FTensor)) :
  decays (tr ++ tr') = (decays tr + decays tr')%nat.
Proof.
  induction tr as [|e tr IH]; [reflexivity|].
  destruct e; cbn [app decays]; rewrite IH; reflexivity.
Qed.

Section Decision.

Variable args : Args.
Variables FTensor OptState : Type.

Lemma validations_cons (v : float) (vs : list float)
  (g : Globals FTensor OptState) :
  validations args (v :: vs) g
  = match checkpoint_or_decay args v g with
    | (g1, Ok _) => validations args vs g1
    | (g1, Raise e) => (g1, Raise e)
    end.
Proof. reflexivity. Qed.

Lemma validations_app (vs vs' : list float) :
  forall g : Globals FTensor OptState,
    validations args (vs ++ vs') g
    = match validations args vs g with
      | (g1, Ok _) => validations args vs' g1
      | (g1, Raise e) => (g1, Raise e)
      end.
Proof.
  induction vs as [|v vs IH]; intros g; [reflexivity|].
  cbn [app]. rewrite !validations_cons.
  destruct (checkpoint_or_decay args v g) as [g1 [[]|e]]; [apply IH|].
  reflexivity.
Qed.

(** Validations that do not improve, while the counter stays below the
    threshold, only count. *)
Lemma validations_count (vs : list float) :
  forall g : Globals FTensor OptState,
    (forall v, In v vs -> improved (best_val_loss g) v = false) ->
    0 <= patience_count g ->
    patience_count g + Py.len vs <= patience args ->
    validations args vs g
    = (mkGlobals (model g) (lr g) (optimizer g) (best_val_loss g)
                 (patience_count g + Py.len vs) (save_file g) (trace g),
       Ok tt).
Proof.
  induction vs as [|v vs IH]; intros g Hv H0 Hc.
  - unfold Py.len. cbn [length Z.of_nat]. rewrite Z.add_0_r.
    destruct g. reflexivity.
  - unfold Py.len in *. cbn [length] in *.
    rewrite validations_cons, checkpoint_or_decay_wait;
      [|apply Hv; now left|lia].
    rewrite IH; cbn [best_val_loss patience_count model lr optimizer
                       save_file trace].
    + do 2 f_equal. lia.
    + intros w Hw. apply Hv. now right.
    + lia.
    + lia.
Qed.

(** X14: from a counter of zero, [patience + 1] validations in a row
    that do not improve divide the learning rate exactly once, at the
    last of them, and leave the counter at zero again; the model, the
    recorded best and the saved file are as before. *)
Theorem decay_cycle (vs : list float) (g : Globals FTensor OptState) :
  0 <= patience args ->
  patience_count g = 0 ->
  (lr_decay_rate args =? 0)%float = false ->
  Py.len vs = patience args + 1 ->
  (forall v, In v vs -> improved (best_val_loss g) v = false) ->
  validations args vs g
  = (mkGlobals (model g) (lr g / lr_decay_rate args)%float (optimizer g)
               (best_val_loss g) 0 (save_file g)
               (trace g ++ [DecayLR (lr g / lr_decay_rate args)%float]),
     Ok tt).
Proof.
  intros Hp Hc Hd Hlen Hv.
  destruct (exists_last (l := vs)) as (vs1 & v & ->).
  { intros ->. unfold Py.len in Hlen. simpl in Hlen. lia. }
  unfold Py.len in Hlen. rewrite length_app in Hlen. cbn [length] in Hlen.
  rewrite validations_app, validations_count.
  - rewrite validations_cons, checkpoint_or_decay_decay;
      cbn [best_val_loss patience_count model lr optimizer save_file trace].
    + reflexivity.
    + apply Hv. apply in_or_app. right. now left.
    + unfold Py.len. lia.
    + assumption.
  - intros w Hw. apply Hv. apply in_or_app. now left.
  - lia.
  - unfold Py.len. lia.
Qed.

(** X15: the patience counter stays between zero and the threshold
    through any sequence of validations, whatever their losses and
    whether or not one of them raises. *)
Theorem patience_count_bounds (vs : list float) :
  forall (g g' : Globals FTensor OptState) (r : result unit),
    0 <= patience_count g <= patience args ->
    validations args vs g = (g', r) ->
    0 <= patience_count g' <= patience args.
Proof.
  induction vs as [|v vs IH]; intros g g' r Hc E.
  - injection E as <- _. exact Hc.
  - rewrite validations_cons in E.
    destruct (checkpoint_or_decay args v g) as [g1 [[]|e]] eqn:D.
    + apply (IH g1 g' r); [|exact E].
      unfold checkpoint_or_decay in D.
      destruct (improved (best_val_loss g) v).
      { injection D as <-. cbn. lia. }
      destruct (Z.eqb_spec (patience_count g) (patience args)).
      * destruct (lr_decay_rate args =? 0)%float; [discriminate|].
        injection D as <-. cbn. lia.
      * injection D as <-. cbn. lia.
    + injection E as <- _. unfold checkpoint_or_decay in D.
      destruct (improved (best_val_loss g) v); [discriminate|].
      destruct (patience_count g =? patience args); [|discriminate].
      destruct (lr_decay_rate args =? 0)%float; [|discriminate].
      injection D as <- _. exact Hc.
Qed.

(** X16: with a negative patience the learning rate never decays: every
    sequence of validations succeeds with the learning rate it started
    with and reports no decay. *)
Theorem negative_patience_never_decays (vs : list float) :
  forall g : Globals FTensor OptState,
    patience args < 0 ->
    0 <= patience_count g ->
    exists g',
      validations args vs g = (g', Ok tt)
      /\ lr g' = lr g
      /\ decays (trace g') = decays (trace g).
Proof.
  induction vs as [|v vs IH]; intros g Hp Hc.
  - exists g. repeat split.
  - rewrite validations_cons.
    destruct (improved (best_val_loss g) v) eqn:Hi.
    + rewrite checkpoint_or_decay_improved by assumption.
      edestruct IH as (g' & E & Hl & Ht); [exact Hp| |].
      2:{ exists g'. split; [exact E|]. split; [exact Hl|].
          rewrite Ht. cbn [trace]. rewrite decays_app. simpl. lia. }
      cbn [patience_count]. lia.
    + rewrite checkpoint_or_decay_wait by (assumption || lia).
      edestruct IH as (g' & E & Hl & Ht); [exact Hp| |].
      2:{ exists g'. split; [exact E|]. split; [exact Hl|exact Ht]. }
      cbn [patience_count]. lia.
Qed.

(** X17: a validation never raises the recorded best loss, as long as
    that loss is not zero: afterwards the recorded best is the old one,
    or the new loss, which is then strictly lower. *)
Theorem best_never_increases (g g' : Globals FTensor OptState)
  (val_loss b : float) (r : result unit) :
  best_val_loss g = Some b ->
  PyFloat.truthy b = true ->
  checkpoint_or_decay args val_loss g = (g', r) ->
  best_val_loss g' = Some b
  \/ (best_val_loss g' = Some val_loss /\ (val_loss <? b)%float = true).
Proof.
  intros Hb Ht E. unfold checkpoint_or_decay in E. rewrite Hb in E.
  unfold improved in E. rewrite Ht in E. cbn [negb orb] in E.
  destruct (val_loss <? b)%float.
  - injection E as <- _. right. split; reflexivity.
  - destruct (patience_count g =? patience args).
    + destruct (lr_decay_rate args =? 0)%float;
        injection E as <- _; left; first [assumption|reflexivity].
    + injection E as <- _. left. reflexivity.
Qed.



End Decision.

(** ** The whole run *)

Section Triples.

Variables FTensor OptState : Type.






Lemma triple_weaken {A : Type} (P P' Q : Globals FTensor OptState -> Prop)
  (E : exn -> Prop) (c : M FTensor OptState A) :
  (forall g, P' g -> P g) -> triple P c Q E -> triple P' c Q E.
Proof. intros HPP H g g' r HP Eq. exact (H g g' r (HPP g HP) Eq). Qed.


End Triples.





Section Main.

Variable args : Args.
Variables dictionary_len pad_id : Z.
Variable FTensor : Type.
Variable add_ : FTensor -> FTensor -> float -> FTensor.
Variable Hidden : Type.
Variable init_hidden : Model FTensor -> Z -> Hidden.
Variable eval_forward_loss :
  Model FTensor -> Tensor2 -> option Hidden -> list Z -> float * option Hidden.
Variable train_forward_backward :
  Model FTensor -> Tensor2 -> option Hidden -> list Z ->
  Model FTensor * option Hidden.
Variable clip_grad_norm_ : Model FTensor -> float -> Model FTensor.
Variable math_exp : float -> result float.
Variable OptState : Type.
Variable adamw_state0 : OptState.
Variable adamw_step :
  Optimizer OptState -> Model FTensor -> Optimizer OptState * Model FTensor.

(** [math.exp] raises nothing but OverflowError. *)
Hypothesis math_exp_raises :
  forall f e, math_exp f = Raise e -> e = OverflowError.
















End Main.

Section WholeRun.

Variable args : Args.
Variables dictionary_len pad_id : Z.
Variable FTensor : Type.
Variable add_ : FTensor -> FTensor -> float -> FTensor.
Variable Hidden : Type.
Variable init_hidden : Model FTensor -> Z -> Hidden.
Variable eval_forward_loss :
  Model FTensor -> Tensor2 -> option Hidden -> list Z -> float * option Hidden.
Variable train_forward_backward :
  Model FTensor -> Tensor2 -> option Hidden -> list Z ->
  Model FTensor * option Hidden.
Variable clip_grad_norm_ : Model FTensor -> float -> Model FTensor.
Variable math_exp : float -> result float.
Variable OptState : Type.
Variable adamw_state0 : OptState.
Variable adamw_step :
  Optimizer OptState -> Model FTensor -> Optimizer OptState * Model FTensor.




(** X22: after a pass of the inner loop that completes there is a saved
    model and a recorded best loss, provided a best loss recorded before
    came with a saved model (as at the start, where none is recorded). *)
Theorem sub_epoch_leaves_checkpoint (train_data val_data : Tensor2)
  (train_intervals : list Z) (epoch i : Z)
  (g g' : Globals FTensor OptState) :
  checkpoint_present g ->
  sub_epoch args dictionary_len pad_id add_ init_hidden eval_forward_loss
            train_forward_backward clip_grad_norm_ math_exp adamw_step
            train_data val_data train_intervals epoch i g = (g', Ok tt) ->
  (exists m, save_file g' = Some m)
  /\ (exists b, best_val_loss g' = Some b)
  /\ checkpoint_present g'.
Proof.
  intros Hcp E. apply sub_epoch_decision in E.
  destruct E as (g1 & g2 & v & (_ & Hb1 & _ & Hs1) & _ & D
                 & (_ & Hb2 & _ & Hs2) & _).
  assert (H : (exists m, save_file g2 = Some m)
              /\ exists b, best_val_loss g2 = Some b).
  { unfold checkpoint_or_decay in D.
    destruct (best_val_loss g1) as [b|] eqn:Eb.
    - assert (Hf : exists m, save_file g1 = Some m).
      { unfold checkpoint_present in Hcp.
        rewrite <- Hb1, <- Hs1 in Hcp.
        destruct (save_file g1) as [m|]; [now exists m|].
        now elim Hcp. }
      destruct (improved (Some b) v).
      + injection D as <-. cbn. eauto.
      + destruct (_ =? _).
        * destruct (_ =? _)%float; [discriminate|].
          injection D as <-. cbn. eauto.
        * injection D as <-. cbn. eauto.
    - cbn [improved] in D. injection D as <-. cbn. eauto. }
  destruct H as [[m Hm] [b Hb]]. rewrite Hs2, Hb2.
  split; [now exists m|]. split; [now exists b|].
  unfold checkpoint_present. rewrite Hs2, Hm. discriminate.
Qed.



(** X25: with [--train-eval-interval] zero and a supported optimizer the
    run stops with ZeroDivisionError when it sizes the sub-intervals,
    before anything is trained, printed or saved. *)
Theorem main_zero_interval (corpus_train corpus_valid corpus_test : list Z)
  (m0 : Model FTensor) (file0 : option (Model FTensor)) :
  train_eval_interval args = 0 ->
  optim args = "adamw"%string \/ optim args = "sgd"%string ->
  1 <= batch_size args ->
  1 <= eval_batch_size args ->
  exists g,
    main args dictionary_len pad_id add_ init_hidden eval_forward_loss
         train_forward_backward clip_grad_norm_ math_exp adamw_state0
         adamw_step corpus_train corpus_valid corpus_test
         (start args OptState m0 file0)
    = (g, Raise ZeroDivisionError)
    /\ trace g = [] /\ model g = m0 /\ save_file g = file0.
Proof.
  intros Hi Ho H1 H2. unfold main, bindM, lift.
  destruct (batchify_ok corpus_train H1) as [x1 ->].
  destruct (batchify_ok corpus_valid H2) as [x2 ->].
  destruct (batchify_ok corpus_test H2) as [x3 ->].
  unfold setup_optimizer, init_counters, PyFloat.truediv.
  rewrite Hi. cbn [Z.eqb].
  destruct Ho as [-> | ->]; cbn; eexists; repeat split.
Qed.

End WholeRun.

(** * The further properties at concrete inputs *)

Lemma batchify_raises_witness :
  (exists x, batchify alphabet 4 = Ok x)
  /\ batchify alphabet 0 = Raise ZeroDivisionError
  /\ batchify alphabet (-2) = Raise RuntimeError.
Proof.
  assert (H1 : 1 <= 4) by lia.
  assert (H2 : -2 < 0) by lia.
  split; [|split].
  - exact (proj1 (batchify_raises alphabet 4) H1).
  - exact (proj1 (proj2 (batchify_raises alphabet 0)) eq_refl).
  - exact (proj2 (proj2 (batchify_raises alphabet (-2))) H2).
Defined.

Lemma get_batch_fails_only_witness :
  get_batch (with_norder window_args (-1)) 0 alphabet_batched 0 26 true
  = Raise RuntimeError
  /\ norder (with_norder window_args (-1)) < 0.
Proof.
  assert (Hn : norder (with_norder window_args (-1)) < 0) by (simpl; lia).
  destruct (@get_batch_fails_only (with_norder window_args (-1)) 0
              alphabet_batched 0 26 true) as [H1 H2].
  split.
  - exact (H2 eq_refl eq_refl Hn).
  - exact (proj1 (proj2 (H1 RuntimeError (H2 eq_refl eq_refl Hn)))).
Defined.

Lemma get_batch_rectangular_witness :
  wf first_pad_window /\ dim1 first_pad_window = 4%nat.
Proof.
  destruct (@get_batch_rectangular window_args 0 alphabet_batched 0 26 true
              first_pad_window [0;6;12;18;1;7;13;19]
              alphabet_batched_wf eq_refl) as (H1 & H2 & _).
  split; assumption.
Defined.

Lemma next_token_in_stream_witness :
  nth 2 (nth 1 (rows first_seq_window) []) 0 = nth 13 alphabet 0
  /\ nth 6 [1;7;13;19;2;8;14;20] 0 = nth 14 alphabet 0.
Proof.
  assert (HB : 1 <= 4) by lia.
  assert (Hb : 0 <= bptt window_args) by (simpl; lia).
  assert (Hi : 0 <= 0 < size0 alphabet_batched - 1)
    by (vm_compute; intuition congruence).
  assert (Ht : Z.of_nat 1 < Z.min (bptt window_args)
                                  (size0 alphabet_batched - 1 - 0))
    by (vm_compute; reflexivity).
  assert (Hc : (2 < Z.to_nat 4)%nat) by (simpl; lia).
  exact (@next_token_in_stream window_args 0 alphabet 4 alphabet_batched
           0 26 first_seq_window [1;7;13;19;2;8;14;20] 1 2
           HB eq_refl Hb Hi eq_refl Ht Hc).
Defined.

Lemma sequential_targets_tile_witness :
  window_targets window_args 0 alphabet_batched 26 false [0; 2; 4]
  = concat (skipn 1 (rows alphabet_batched)).
Proof.
  assert (Hb : 0 < bptt window_args) by (simpl; lia).
  assert (HR : 2 <= size0 alphabet_batched) by (vm_compute; congruence).
  exact (@sequential_targets_tile window_args 0 alphabet_batched 26
           [0; 2; 4] Hb HR eq_refl).
Defined.

Lemma pad_start_targets_tile_witness :
  window_targets window_args 0 alphabet_batched 26 true [0; 2; 4]
  = concat (rows alphabet_batched)
  /\ window_targets window_args 0 seven_rows 26 true [0; 2; 4]
     = concat (firstn 6 (rows seven_rows)).
Proof.
  assert (Hb : 0 < bptt window_args) by (simpl; lia).
  assert (Hn : 0 <= norder window_args) by (simpl; lia).
  assert (HR : 2 <= size0 alphabet_batched) by (vm_compute; congruence).
  assert (HR' : 2 <= size0 seven_rows) by (vm_compute; congruence).
  assert (H1 : (size0 alphabet_batched - 1) mod bptt window_args <> 0)
    by (vm_compute; congruence).
  split.
  - exact (proj1 (@pad_start_targets_tile window_args 0 alphabet_batched 26
                    [0; 2; 4] Hb Hn HR eq_refl) H1).
  - exact (proj2 (@pad_start_targets_tile window_args 0 seven_rows 26
                    [0; 2; 4] Hb Hn HR' eq_refl) eq_refl).
Defined.


Lemma evaluate_returns_witness :
  exists v,
    evaluate window_args 26 0 no_hidden unit_loss toy_model seven_rows = Ok v.
Proof.
  assert (Hb : 0 < bptt window_args) by (simpl; lia).
  assert (Hn : 0 <= norder window_args) by (simpl; lia).
  assert (HR : 2 <= size0 seven_rows) by (vm_compute; congruence).
  exact (@evaluate_returns window_args 26 0 float unit no_hidden unit_loss
           toy_model seven_rows Hb Hn HR).
Defined.

Lemma evaluate_degenerate_witness :
  evaluate (with_bptt window_args 0) 26 0 no_hidden unit_loss toy_model
           seven_rows = Raise ValueError
  /\ evaluate window_args 26 0 no_hidden unit_loss toy_model
              (mkTensor2 1 [[0]]) = Raise ZeroDivisionError
  /\ evaluate window_args 26 0 no_hidden unit_loss toy_model
              (mkTensor2 1 []) = Ok (-0)%float
  /\ evaluate (with_bptt window_args (-1)) 26 0 no_hidden unit_loss toy_model
              seven_rows = Ok 0%float.
Proof.
  assert (Hb : 0 < bptt window_args) by (simpl; lia).
  assert (Hb' : bptt window_args <> 0) by (simpl; lia).
  assert (Hn : bptt (with_bptt window_args (-1)) < 0) by (simpl; lia).
  assert (HR : 2 <= size0 seven_rows) by (vm_compute; congruence).
  split; [|split; [|split]].
  - exact (proj1 (@evaluate_degenerate (with_bptt window_args 0) 26 0 float
                    unit no_hidden unit_loss toy_model seven_rows) eq_refl).
  - exact (proj1 (proj2 (@evaluate_degenerate window_args 26 0 float unit
                           no_hidden unit_loss toy_model (mkTensor2 1 [[0]])))
                 Hb' eq_refl).
  - exact (proj1 (proj2 (proj2 (@evaluate_degenerate window_args 26 0 float
                                  unit no_hidden unit_loss toy_model
                                  (mkTensor2 1 []))))
                 Hb eq_refl).
  - exact (proj2 (proj2 (proj2 (@evaluate_degenerate
                                  (with_bptt window_args (-1)) 26 0 float
                                  unit no_hidden unit_loss toy_model
                                  seven_rows)))
                 Hn HR).
Defined.

Lemma evaluate_small_corpus_witness :
  (exists x, batchify alphabet 128 = Ok x
             /\ evaluate window_args 26 0 no_hidden unit_loss toy_model x
                = Ok (-0)%float)
  /\ (exists x, batchify alphabet 20 = Ok x
                /\ evaluate window_args 26 0 no_hidden unit_loss toy_model x
                   = Raise ZeroDivisionError).
Proof.
  assert (Hb : 0 < bptt window_args) by (simpl; lia).
  assert (H1 : 1 <= 128) by lia.
  assert (H2 : 1 <= 20) by lia.
  assert (L1 : Py.len alphabet < 128) by (vm_compute; reflexivity).
  assert (L2 : 20 <= Py.len alphabet < 2 * 20)
    by (vm_compute; intuition congruence).
  split.
  - destruct (@evaluate_small_corpus window_args 26 0 float unit no_hidden
                unit_loss toy_model alphabet 128 H1 Hb) as (x & E & H & _).
    exists x. split; [exact E|exact (proj1 (H L1))].
  - destruct (@evaluate_small_corpus window_args 26 0 float unit no_hidden
                unit_loss toy_model alphabet 20 H2 Hb) as (x & E & _ & H).
    exists x. split; [exact E|exact (H L2)].
Defined.


Lemma train_degenerate_witness :
  snd (train (with_bptt sgd_args 0) 26 0 scalar_add_ no_hidden toy_backward
             toy_clip toy_adamw_step alphabet_batched 0 5
             after_first_validation) = Raise ValueError
  /\ snd (train sgd_window_args 26 0 scalar_add_ no_hidden toy_backward
                toy_clip toy_adamw_step alphabet_batched 5 5
                after_first_validation) = Ok tt.
Proof.
  assert (H0 : bptt sgd_window_args <> 0) by (simpl; lia).
  assert (Hp : 0 < bptt sgd_window_args -> 5 <= 5) by (intros _; lia).
  assert (Hn : bptt sgd_window_args < 0 -> 5 <= 5) by (intros _; lia).
  split.
  - rewrite (proj1 (@train_degenerate (with_bptt sgd_args 0) 26 0 float
                      scalar_add_ unit no_hidden toy_backward toy_clip unit
                      toy_adamw_step alphabet_batched 0 5
                      after_first_validation) eq_refl).
    reflexivity.
  - rewrite (proj2 (@train_degenerate sgd_window_args 26 0 float
                      scalar_add_ unit no_hidden toy_backward toy_clip unit
                      toy_adamw_step alphabet_batched 5 5
                      after_first_validation) H0 Hp Hn).
    reflexivity.
Defined.

Lemma train_dry_run_witness :
  model (fst (train (with_dry_run sgd_window_args) 26 0 scalar_add_ no_hidden
                    toy_backward toy_clip toy_adamw_step alphabet_batched 0 5
                    after_first_validation))
  = [mkParam 0.25%float 0.25%float].
Proof.
  assert (Hb : 0 < bptt (with_dry_run sgd_window_args)) by (simpl; lia).
  assert (Hl : 0 < 5) by lia.
  rewrite (@train_dry_run (with_dry_run sgd_window_args) 26 0 float
             scalar_add_ unit no_hidden toy_backward toy_clip unit
             toy_adamw_step alphabet_batched 0 5 after_first_validation
             eq_refl Hb Hl).
  vm_compute. reflexivity.
Defined.

Lemma decay_cycle_witness :
  validations patience2_args [2%float; 2%float; 2%float]
              after_first_validation
  = (mkGlobals toy_model 0.25%float None (Some 1%float) 0 (Some toy_model)
               [SaveModel toy_model; DecayLR 0.25%float], Ok tt).
Proof.
  assert (Hp : 0 <= patience patience2_args) by (simpl; lia).
  assert (Hv : forall v, In v [2%float; 2%float; 2%float] ->
                 improved (best_val_loss after_first_validation) v = false).
  { intros v [<-|[<-|[<-|[]]]]; reflexivity. }
  exact (@decay_cycle patience2_args float unit
           [2%float; 2%float; 2%float] after_first_validation
           Hp eq_refl eq_refl eq_refl Hv).
Defined.

Lemma patience_count_bounds_witness :
  0 <= patience_count
         (fst (validations patience2_args
                           [2%float; 0.5%float; 2%float; 2%float]
                           after_first_validation))
    <= 2.
Proof.
  assert (Hc : 0 <= patience_count after_first_validation
               <= patience patience2_args) by (simpl; lia).
  exact (@patience_count_bounds patience2_args float unit
           [2%float; 0.5%float; 2%float; 2%float]
           after_first_validation _ _ Hc (surjective_pairing _)).
Defined.

Lemma negative_patience_never_decays_witness :
  exists g',
    validations (with_patience default_args (-1))
                [2%float; 2%float; 2%float] after_first_validation
    = (g', Ok tt)
    /\ lr g' = 1%float.
Proof.
  assert (Hp : patience (with_patience default_args (-1)) < 0)
    by (simpl; lia).
  assert (Hc : 0 <= patience_count after_first_validation) by (simpl; lia).
  destruct (@negative_patience_never_decays
              (with_patience default_args (-1)) float unit
              [2%float; 2%float; 2%float] after_first_validation Hp Hc)
    as (g' & E & Hl & _).
  exists g'. split; [exact E|exact Hl].
Defined.

Lemma best_never_increases_witness :
  best_val_loss
    (fst (checkpoint_or_decay default_args 0.5%float after_first_validation))
  = Some 1%float
  \/ (best_val_loss
        (fst (checkpoint_or_decay default_args 0.5%float
                                  after_first_validation))
      = Some 0.5%float
      /\ (0.5 <? 1)%float = true).
Proof.
  exact (@best_never_increases default_args float unit
           after_first_validation _ 0.5%float 1%float _
           eq_refl eq_refl (surjective_pairing _)).
Defined.






Lemma sub_epoch_leaves_checkpoint_witness :
  exists g' m,
    sub_epoch sgd_window_args 26 0 scalar_add_ no_hidden unit_loss
              toy_backward toy_clip toy_exp toy_adamw_step
              alphabet_batched seven_rows [0; 5] 1 0
              (toy_start sgd_window_args None) = (g', Ok tt)
    /\ save_file g' = Some m.
Proof.
  eexists.
  assert (E : sub_epoch sgd_window_args 26 0 scalar_add_ no_hidden unit_loss
                toy_backward toy_clip toy_exp toy_adamw_step
                alphabet_batched seven_rows [0; 5] 1 0
                (toy_start sgd_window_args None)
              = (fst (sub_epoch sgd_window_args 26 0 scalar_add_ no_hidden
                        unit_loss toy_backward toy_clip toy_exp
                        toy_adamw_step alphabet_batched seven_rows [0; 5] 1 0
                        (toy_start sgd_window_args None)), Ok tt))
    by (vm_compute; reflexivity).
  assert (Hc : checkpoint_present (toy_start sgd_window_args None)).
  { intros H. now elim H. }
  destruct (@sub_epoch_leaves_checkpoint sgd_window_args 26 0 float
              scalar_add_ unit no_hidden unit_loss toy_backward toy_clip
              toy_exp unit toy_adamw_step alphabet_batched seven_rows
              [0; 5] 1 0 (toy_start sgd_window_args None) _ Hc E)
    as ([m Hm] & _).
  exists m. split; [exact E|exact Hm].
Defined.



Lemma main_zero_interval_witness :
  exists g,
    main (with_interval short_run_args 0) 26 0 scalar_add_ no_hidden
         unit_loss toy_backward toy_clip toy_exp tt toy_adamw_step alphabet
         alphabet alphabet (toy_start (with_interval short_run_args 0) None)
    = (g, Raise ZeroDivisionError)
    /\ trace g = [].
Proof.
  assert (Ho : optim (with_interval short_run_args 0) = "adamw"%string
               \/ optim (with_interval short_run_args 0) = "sgd"%string)
    by (right; reflexivity).
  assert (H1 : 1 <= batch_size (with_interval short_run_args 0))
    by (simpl; lia).
  assert (H2 : 1 <= eval_batch_size (with_interval short_run_args 0))
    by (simpl; lia).
  destruct (@main_zero_interval (with_interval short_run_args 0) 26 0 float
              scalar_add_ unit no_hidden unit_loss toy_backward toy_clip
              toy_exp unit tt toy_adamw_step alphabet alphabet alphabet
              toy_model None eq_refl Ho H1 H2)
    as (g & E & Ht & _).
  exists g. split; [exact E|exact Ht].
Defined.
